(** * OCRify front-end: the upload / submit / result workflow of [App.jsx]

    The component of [my-ocr/src/App.jsx] keeps its view state in React
    [useState] cells and changes it from event handlers.  A handler reads
    the values of the render it was created in and calls setters; nothing
    else is observable of it besides the console, the network request and
    the timer it starts.  The embedding therefore represents a handler by
    the sequence of effects it performs, in program order, together with
    its completion (normal, or an exception), and represents the page by a
    [World] on which that sequence is replayed. *)

From Stdlib Require Import String Ascii List ZArith NArith Bool Lia.
From Stdlib Require Import DecimalString.
Import ListNotations.

Set Warnings "-register-all".

Local Open Scope string_scope.
Local Open Scope list_scope.

(** ** JavaScript values

    The values that reach the component: [null], [undefined], and what
    [JSON.parse] builds.  Numbers are restricted to integers (the count the
    backend reports and the HTTP status are integers) of magnitude below
    10^21, which JavaScript prints in plain decimal; fractions and larger
    numbers are outside the model.  An object is the list of its own
    properties in insertion order, with distinct keys. *)

Inductive JsValue : Type :=
| VUndefined
| VNull
| VBool (b : bool)
| VNum (n : Z)
| VStr (s : string)
| VArr (items : list JsValue)
| VObj (props : list (string * JsValue)).

(** An exception value.  Every exception the modelled code can meet is an
    [Error] object (a [TypeError], a [SyntaxError] or [new Error(..)]);
    the program only ever reads its [message]. *)
Record JsError : Type := mkError { message : string }.

(** ToBoolean, as used by [if], [!] and [||]. *)
Definition truthy (v : JsValue) : bool :=
  match v with
  | VUndefined | VNull => false
  | VBool b => b
  | VNum n => negb (n =? 0)%Z
  | VStr s => negb (s =? "")
  | VArr _ | VObj _ => true
  end.

(** [a || b] *)
Definition js_or (a b : JsValue) : JsValue := if truthy a then a else b.

Fixpoint assoc (k : string) (props : list (string * JsValue)) : option JsValue :=
  match props with
  | [] => None
  | (k', v) :: rest => if k' =? k then Some v else assoc k rest
  end.

(** Message texts of the engine's own [TypeError]s (V8's wording; the
    language leaves the text to the engine). *)
Definition nullPropertyMessage (base prop : string) : string :=
  "Cannot read properties of " ++ base ++ " (reading '" ++ prop ++ "')".

Definition toPrimitiveMessage : string :=
  "Cannot convert object to primitive value".

(** [v.k] for a property name [k] that no built-in prototype defines (the
    program reads [error], [success], [highlighted_image] and
    [text_regions_detected] only): an own property of an object, else
    [undefined]; on [null] and [undefined] the access throws. *)
Definition get_prop (v : JsValue) (k : string) : JsError + JsValue :=
  match v with
  | VNull => inl (mkError (nullPropertyMessage "null" k))
  | VUndefined => inl (mkError (nullPropertyMessage "undefined" k))
  | VObj props =>
      match assoc k props with
      | Some x => inr x
      | None => inr VUndefined
      end
  | _ => inr VUndefined
  end.

Definition string_of_Z (n : Z) : string :=
  NilZero.string_of_int (Z.to_int n).

Fixpoint join (sep : string) (parts : list string) : string :=
  match parts with
  | [] => ""
  | [p] => p
  | p :: rest => p ++ sep ++ join sep rest
  end.

Fixpoint sequence {A : Type} (l : list (option A)) : option (list A) :=
  match l with
  | [] => Some []
  | None :: _ => None
  | Some x :: rest =>
      match sequence rest with
      | Some xs => Some (x :: xs)
      | None => None
      end
  end.

(** ToString.  [None] stands for the [TypeError] that the conversion of an
    object throws when it has an own, non-callable [toString] property
    (a parsed JSON object may have one).  An array is its elements joined
    by commas, [null] and [undefined] elements giving the empty string. *)
Fixpoint ToString (v : JsValue) : option string :=
  match v with
  | VUndefined => Some "undefined"
  | VNull => Some "null"
  | VBool true => Some "true"
  | VBool false => Some "false"
  | VNum n => Some (string_of_Z n)
  | VStr s => Some s
  | VArr items =>
      let element (x : JsValue) : option string :=
        match x with
        | VUndefined | VNull => Some ""
        | _ => ToString x
        end in
      match sequence (map element items) with
      | Some parts => Some (join "," parts)
      | None => None
      end
  | VObj props =>
      match assoc "toString" props with
      | Some _ => None
      | None => Some "[object Object]"
      end
  end.

(** ** Files and the view state *)

(** A [File] as the browser hands it over: the program reads [name] and
    [type]; [size] and the bytes ride along. *)
Record File : Type := mkFile {
  name : string;
  size : N;
  type : string;
  bytes : list Byte.byte
}.

Record MessageBox : Type := mkMessageBox {
  visible : bool;
  content : string
}.

(** The [useState] cells of [App], under their names. *)
Record AppState : Type := mkAppState {
  selectedImage : option File;
  highlightedImageSrc : JsValue;
  textRegionsDetected : JsValue;
  isDragOver : bool;
  isProcessing : bool;
  ocrFeatureMessage : string;
  showResultPage : bool;
  error : JsValue;
  messageBox : MessageBox;
  mobileMenuOpen : bool
}.

(** The state [App] mounts with (lines 5-15). *)
Definition initialState : AppState := {|
  selectedImage := None;
  highlightedImageSrc := VNull;
  textRegionsDetected := VNum 0;
  isDragOver := false;
  isProcessing := false;
  ocrFeatureMessage := "Text extraction coming soon! For now, you can see the detected text highlighted in the image preview.";
  showResultPage := false;
  error := VStr "";
  messageBox := mkMessageBox false "";
  mobileMenuOpen := false
|}.

Definition API_BASE_URL : string := "https://ocr-production-0ada.up.railway.app".

(** ** Effects *)

(** What a handler does to the outside: a setter call, a console line, the
    multipart [fetch], [event.preventDefault()], or [setTimeout] with the
    effects of its callback and its delay in milliseconds. *)
Inductive Effect : Type :=
| SetSelectedImage (f : option File)
| SetHighlightedImageSrc (v : JsValue)
| SetTextRegionsDetected (v : JsValue)
| SetIsDragOver (b : bool)
| SetIsProcessing (b : bool)
| SetShowResultPage (b : bool)
| SetError (v : JsValue)
| SetMessageBox (m : MessageBox)
| SetTimeout (callback : list Effect) (delay : N)
| PreventDefault
| ConsoleLog (label : string) (arg : JsValue)
| ConsoleError (label : string) (err : JsError)
| Fetch (url method field : string) (file : File).

(** A computation: the effects performed so far, in order, and how it
    ended. *)
Definition M (A : Type) : Type := (list Effect * (JsError + A))%type.

Definition ret {A : Type} (a : A) : M A := ([], inr a).

Definition bind {A B : Type} (m : M A) (k : A -> M B) : M B :=
  match m with
  | (es, inl e) => (es, inl e)
  | (es, inr a) => let (es', r) := k a in (es ++ es', r)
  end.

Definition throw {A : Type} (e : JsError) : M A := ([], inl e).

Definition perform (e : Effect) : M unit := ([e], inr tt).

Definition lift {A : Type} (r : JsError + A) : M A := ([], r).

(** [try { body } catch (err) { handler err }] *)
Definition try_catch {A : Type} (body : M A) (handler : JsError -> M A) : M A :=
  match body with
  | (es, inl e) => let (es', r) := handler e in (es ++ es', r)
  | (es, inr a) => (es, inr a)
  end.

(** [try { body } finally { cleanup }], for a [cleanup] that completes
    normally: the completion of [body] is kept. *)
Definition try_finally {A : Type} (body : M A) (cleanup : M unit) : M A :=
  match body, cleanup with
  | (es, r), (es', inr _) => (es ++ es', r)
  | (es, _), (es', inl e) => (es ++ es', inl e)
  end.

Notation "x <- m ;; k" := (bind m (fun x => k))
  (at level 61, m at next level, right associativity).
Notation "m ;; k" := (bind m (fun _ => k))
  (at level 61, right associativity).

Definition effects {A : Type} (m : M A) : list Effect := fst m.
Definition completion {A : Type} (m : M A) : JsError + A := snd m.

Definition setSelectedImage (f : option File) : M unit := perform (SetSelectedImage f).
Definition setHighlightedImageSrc (v : JsValue) : M unit := perform (SetHighlightedImageSrc v).
Definition setTextRegionsDetected (v : JsValue) : M unit := perform (SetTextRegionsDetected v).
Definition setIsDragOver (b : bool) : M unit := perform (SetIsDragOver b).
Definition setIsProcessing (b : bool) : M unit := perform (SetIsProcessing b).
Definition setShowResultPage (b : bool) : M unit := perform (SetShowResultPage b).
Definition setError (v : JsValue) : M unit := perform (SetError v).
Definition setMessageBox (m : MessageBox) : M unit := perform (SetMessageBox m).
Definition preventDefault : M unit := perform PreventDefault.

(** [setTimeout(callback, delay)]: only the callback's effects matter. *)
Definition setTimeout (callback : M unit) (delay : N) : M unit :=
  perform (SetTimeout (effects callback) delay).

(** ** The page: view state, clock and pending timers *)

(** The clock counts milliseconds; a pending timer is the time it falls due
    and the effects of its callback.  The queue is kept in the order the
    timers were started. *)
Record World : Type := mkWorld {
  app : AppState;
  now : N;
  timers : list (N * list Effect)
}.

Definition with_app (w : World) (s : AppState) : World :=
  mkWorld s (now w) (timers w).

(** One effect on the page.  A setter replaces its cell; [setTimeout]
    queues the callback; the console, the request and [preventDefault]
    leave the page as it is. *)
Definition step (w : World) (e : Effect) : World :=
  let s := app w in
  match e with
  | SetSelectedImage f =>
      with_app w (mkAppState f (highlightedImageSrc s) (textRegionsDetected s)
        (isDragOver s) (isProcessing s) (ocrFeatureMessage s) (showResultPage s)
        (error s) (messageBox s) (mobileMenuOpen s))
  | SetHighlightedImageSrc v =>
      with_app w (mkAppState (selectedImage s) v (textRegionsDetected s)
        (isDragOver s) (isProcessing s) (ocrFeatureMessage s) (showResultPage s)
        (error s) (messageBox s) (mobileMenuOpen s))
  | SetTextRegionsDetected v =>
      with_app w (mkAppState (selectedImage s) (highlightedImageSrc s) v
        (isDragOver s) (isProcessing s) (ocrFeatureMessage s) (showResultPage s)
        (error s) (messageBox s) (mobileMenuOpen s))
  | SetIsDragOver b =>
      with_app w (mkAppState (selectedImage s) (highlightedImageSrc s)
        (textRegionsDetected s) b (isProcessing s) (ocrFeatureMessage s)
        (showResultPage s) (error s) (messageBox s) (mobileMenuOpen s))
  | SetIsProcessing b =>
      with_app w (mkAppState (selectedImage s) (highlightedImageSrc s)
        (textRegionsDetected s) (isDragOver s) b (ocrFeatureMessage s)
        (showResultPage s) (error s) (messageBox s) (mobileMenuOpen s))
  | SetShowResultPage b =>
      with_app w (mkAppState (selectedImage s) (highlightedImageSrc s)
        (textRegionsDetected s) (isDragOver s) (isProcessing s)
        (ocrFeatureMessage s) b (error s) (messageBox s) (mobileMenuOpen s))
  | SetError v =>
      with_app w (mkAppState (selectedImage s) (highlightedImageSrc s)
        (textRegionsDetected s) (isDragOver s) (isProcessing s)
        (ocrFeatureMessage s) (showResultPage s) v (messageBox s)
        (mobileMenuOpen s))
  | SetMessageBox m =>
      with_app w (mkAppState (selectedImage s) (highlightedImageSrc s)
        (textRegionsDetected s) (isDragOver s) (isProcessing s)
        (ocrFeatureMessage s) (showResultPage s) (error s) m
        (mobileMenuOpen s))
  | SetTimeout callback delay =>
      mkWorld s (now w) (timers w ++ [((now w + delay)%N, callback)])
  | PreventDefault | ConsoleLog _ _ | ConsoleError _ _ | Fetch _ _ _ _ => w
  end.

Definition run (w : World) (es : list Effect) : World := fold_left step es w.

(** The page after a handler has run on it. *)
Definition dispatch (w : World) (handler : M unit) : World :=
  run w (effects handler).

(** The browser runs expired timers in the order they fall due, and timers
    due at the same time in the order they were started: a stable
    insertion by due time. *)
Fixpoint insert_timer (p : N * list Effect) (q : list (N * list Effect))
    : list (N * list Effect) :=
  match q with
  | [] => [p]
  | p' :: rest =>
      if (fst p' <=? fst p)%N then p' :: insert_timer p rest
      else p :: p' :: rest
  end.

Definition by_due_time (q : list (N * list Effect)) : list (N * list Effect) :=
  fold_left (fun sorted p => insert_timer p sorted) q [].

(** Letting [d] milliseconds pass: the timers that have fallen due by then
    run, in due order, and the others stay queued.  (No callback of this
    program starts a timer, so one pass is enough.) *)
Definition advance (d : N) (w : World) : World :=
  let t := (now w + d)%N in
  let due := by_due_time (filter (fun p => (fst p <=? t)%N) (timers w)) in
  let later := filter (fun p => negb (fst p <=? t)%N) (timers w) in
  fold_left (fun w' p => run w' (snd p)) due (mkWorld (app w) t later).

Definition initialWorld : World := mkWorld initialState 0 [].

(** ** The network, as the handler sees it *)

(** A [Response]: the status line, and what [response.json()] settles to
    (the parsed body, or the rejection for a body that is not JSON). *)
Record Response : Type := mkResponse {
  status : Z;
  statusText : string;
  json : JsError + JsValue
}.

(** [response.ok]: the status is in the range 200-299. *)
Definition ok (r : Response) : bool :=
  ((200 <=? status r) && (status r <=? 299))%Z.

(** What the awaited [fetch] settles to: a rejection (the host cannot be
    reached, ...) or a response. *)
Definition FetchOutcome : Type := (JsError + Response)%type.

(** [await fetch(url, { method, body: formData })] with the one form field
    the program appends. *)
Definition fetch (url method field : string) (file : File)
    (net : FetchOutcome) : M Response :=
  perform (Fetch url method field file) ;; lift net.

(** [new Error(v)]: the message is ToString of the argument, and empty
    when the argument is [undefined]. *)
Definition newError (v : JsValue) : M JsError :=
  match v with
  | VUndefined => ret (mkError "")
  | _ =>
      match ToString v with
      | Some s => ret (mkError s)
      | None => throw (mkError toPrimitiveMessage)
      end
  end.

(** ** The handlers of [App] *)

(** Lines 21-26. *)
Definition showCustomMessageBox (msg : string) : M unit :=
  setMessageBox (mkMessageBox true msg) ;;
  setTimeout (setMessageBox (mkMessageBox false "")) 3000.

(** Lines 29-42; [files] is [event.target.files]. *)
Definition handleFileChange (files : list File) : M unit :=
  match hd_error files with
  | Some file =>
      if String.prefix "image/" (type file) then
        setSelectedImage (Some file) ;;
        setError (VStr "")
      else
        setError (VStr "Please upload an image file (JPG, PNG). PDF support for detection is not yet available.") ;;
        setSelectedImage None
  | None => ret tt
  end.

(** Lines 45-52. *)
Definition handleDragOver : M unit :=
  preventDefault ;;
  setIsDragOver true.

Definition handleDragLeave : M unit :=
  setIsDragOver false.

(** Lines 54-68; [files] is [event.dataTransfer.files]. *)
Definition handleDrop (files : list File) : M unit :=
  preventDefault ;;
  setIsDragOver false ;;
  match hd_error files with
  | Some file =>
      if String.prefix "image/" (type file) then
        setSelectedImage (Some file) ;;
        setError (VStr "")
      else
        setError (VStr "Please drop an image file (JPG, PNG).") ;;
        setSelectedImage None
  | None => ret tt
  end.

(** Lines 71-124.  [s] is the render the handler was created in (it reads
    [selectedImage] from it), [net] what the request settles to. *)
Definition processTextDetection (s : AppState) (net : FetchOutcome) : M unit :=
  match selectedImage s with
  | None =>
      setError (VStr "Please select an image to process.")
  | Some image =>
      setIsProcessing true ;;
      setError (VStr "") ;;
      setHighlightedImageSrc VNull ;;
      setTextRegionsDetected (VNum 0) ;;
      perform (ConsoleLog "Sending image to backend for text detection:" (VStr (name image))) ;;
      try_finally
        (try_catch
           (response <- fetch (API_BASE_URL ++ "/detect-text") "POST" "file" image net ;;
            (if negb (ok response) then
               errorData <- try_catch (lift (json response))
                              (fun jsonError => ret (VObj [("error", VStr (statusText response))])) ;;
               reported <- lift (get_prop errorData "error") ;;
               err <- newError (js_or reported
                                  (VStr ("HTTP error! status: " ++ string_of_Z (status response)))) ;;
               throw err
             else ret tt) ;;
            result <- lift (json response) ;;
            perform (ConsoleLog "Backend response:" result) ;;
            success <- lift (get_prop result "success") ;;
            if truthy success then
              image_src <- lift (get_prop result "highlighted_image") ;;
              setHighlightedImageSrc image_src ;;
              count <- lift (get_prop result "text_regions_detected") ;;
              setTextRegionsDetected count ;;
              showCustomMessageBox "🎉 Text detection complete!" ;;
              setShowResultPage true
            else
              reported <- lift (get_prop result "error") ;;
              setError (js_or reported (VStr "Unknown error occurred during detection.")) ;;
              showCustomMessageBox "❌ Detection failed. Please try again.")
           (fun err =>
              perform (ConsoleError "Text detection failed:" err) ;;
              setError (VStr ("Failed to connect to backend or process image: "
                              ++ message err
                              ++ ". Please ensure the backend is running.")) ;;
              showCustomMessageBox "❌ Detection failed. Please check backend connection."))
        (setIsProcessing false)
  end.

(** Lines 126-132. *)
Definition handleBackToInput : M unit :=
  setShowResultPage false ;;
  setSelectedImage None ;;
  setHighlightedImageSrc VNull ;;
  setTextRegionsDetected (VNum 0) ;;
  setError (VStr "").

(** The submit button: the handler of the current render runs on the page,
    and the request settles to [net].  The effects before and after the
    request are replayed back to back (no other event in between). *)
Definition submit (w : World) (net : FetchOutcome) : World :=
  dispatch w (processTextDetection (app w) net).

(** [showCustomMessageBox] as an event on the page. *)
Definition notify (w : World) (msg : string) : World :=
  dispatch w (showCustomMessageBox msg).

(** The callback every timer of this program carries (lines 23-25). *)
Definition hideMessageBox : list Effect :=
  [SetMessageBox (mkMessageBox false "")].

(** The text the [catch] block of [processTextDetection] surfaces. *)
Definition connectivityMessage (detail : string) : string :=
  "Failed to connect to backend or process image: " ++ detail
  ++ ". Please ensure the backend is running.".

(** Every pending timer carries the hide callback. *)
Definition hide_timers_only (w : World) : Prop :=
  Forall (fun p => snd p = hideMessageBox) (timers w).

(** Effects that start no timer but hide timers. *)
Definition starts_hide_timers_only (es : list Effect) : Prop :=
  Forall (fun e => match e with
                   | SetTimeout callback _ => callback = hideMessageBox
                   | _ => True
                   end) es.

(** The pages the user can bring about: the page as mounted, and what the
    handlers and the passing of time make of a page. *)
Inductive reachable : World -> Prop :=
| reach_mount : reachable initialWorld
| reach_pick (w : World) (files : list File) :
    reachable w -> reachable (dispatch w (handleFileChange files))
| reach_drag_over (w : World) :
    reachable w -> reachable (dispatch w handleDragOver)
| reach_drag_leave (w : World) :
    reachable w -> reachable (dispatch w handleDragLeave)
| reach_drop (w : World) (files : list File) :
    reachable w -> reachable (dispatch w (handleDrop files))
| reach_submit (w : World) (net : FetchOutcome) :
    reachable w -> reachable (submit w net)
| reach_back (w : World) :
    reachable w -> reachable (dispatch w handleBackToInput)
| reach_wait (w : World) (d : N) :
    reachable w -> reachable (advance d w).

(** The effects of a run up to the moment the request goes out. *)
Fixpoint until_request (es : list Effect) : list Effect :=
  match es with
  | [] => []
  | Fetch url method field file :: _ => [Fetch url method field file]
  | e :: rest => e :: until_request rest
  end.

(** "A message stays visible until its own delay has elapsed": on every
    reachable page, a message is still visible [d] milliseconds after its
    [notify], for every [d] below the delay. *)
Definition visible_for_own_delay : Prop :=
  forall (w : World) (msg : string) (d : N),
    reachable w ->
    (d < 3000)%N ->
    visible (messageBox (app (advance d (notify w msg)))) = true.

(** ** What the render shows

    The parts of the JSX that decide what the user can see and do. *)

(** Line 404, [disabled={!selectedImage || isProcessing}]. *)
Definition submitDisabled (s : AppState) : bool :=
  match selectedImage s with
  | Some _ => isProcessing s
  | None => true
  end.

(** Lines 198 and 390-396: the error banner belongs to the input page and
    is rendered when [error] is truthy. *)
Definition errorBanner (s : AppState) : option JsValue :=
  if showResultPage s then None
  else if truthy (error s) then Some (error s) else None.

(** Lines 198, 207 and 222, the caption under the highlighted image: the
    panel belongs to the result page and is rendered when
    [highlightedImageSrc] is truthy; its caption is
    [selectedImage ? selectedImage.name : 'Processed Image']. *)
Definition resultCaption (s : AppState) : option string :=
  if showResultPage s then
    if truthy (highlightedImageSrc s) then
      Some (match selectedImage s with
            | Some file => name file
            | None => "Processed Image"
            end)
    else None
  else None.

(** Lines 198 and 402-404, the submit button: it belongs to the input
    page; [None] when it is not rendered, else whether it is disabled. *)
Definition submitButton (s : AppState) : option bool :=
  if showResultPage s then None else Some (submitDisabled s).

(** Lines 461-465: the message box is rendered while it is visible. *)
Definition toast (s : AppState) : option string :=
  if visible (messageBox s) then Some (content (messageBox s)) else None.

Definition string_of_N (n : N) : string :=
  NilZero.string_of_uint (N.to_uint n).

(** Line 373, [(selectedImage.size / 1024 / 1024).toFixed(2)].  A size is
    an integer below 2^53, so both divisions by 1024 are exact in binary
    floating point and [toFixed(2)] rounds the exact quotient [size / 2^20]
    to the nearest hundredth, the larger one on a tie:
    [floor (100 * size / 2^20 + 1/2)] hundredths. *)
Definition sizeHundredths (bytes_ : N) : N :=
  ((200 * bytes_ + 1048576) / 2097152)%N.

Definition sizeInMegabytes (bytes_ : N) : string :=
  let h := sizeHundredths bytes_ in
  string_of_N (h / 100) ++ "." ++ string_of_N ((h mod 100) / 10)
  ++ string_of_N (h mod 10).

(** Line 378, the remove button next to the selected file:
    [() => setSelectedImage(null)]. *)
Definition removeSelectedImage : M unit := setSelectedImage None.

(** ** A submission in two halves

    [processTextDetection] awaits the request: what it does up to the
    [fetch] happens at the click, the rest when the request settles, and
    other events may come in between. *)

(** The effects of a run after the request has gone out. *)
Fixpoint after_request (es : list Effect) : list Effect :=
  match es with
  | [] => []
  | Fetch _ _ _ _ :: rest => rest
  | _ :: rest => after_request rest
  end.

(** The calls of a run that concern the message box: the setter and the
    timer that [showCustomMessageBox] starts. *)
Definition notifications (es : list Effect) : list Effect :=
  filter (fun e => match e with
                   | SetMessageBox _ | SetTimeout _ _ => true
                   | _ => false
                   end) es.

(** The requests among the effects of a run. *)
Definition requests (es : list Effect) : list Effect :=
  filter (fun e => match e with Fetch _ _ _ _ => true | _ => false end) es.

(** The click: the handler of the current render runs up to its request. *)
Definition submit_start (w : World) (net : FetchOutcome) : World :=
  run w (until_request (effects (processTextDetection (app w) net))).

(** The request of the handler created in render [s] settles to [net], on
    whatever the page has become by then. *)
Definition submit_finish (s : AppState) (net : FetchOutcome) (w : World) : World :=
  run w (after_request (effects (processTextDetection s net))).

(** The submission reaches the result page: a 2xx answer whose body parses
    to a value with a truthy [success] (lines 93, 105 and 108). *)
Definition succeeded (net : FetchOutcome) : bool :=
  match net with
  | inl _ => false
  | inr r =>
      ok r &&
      match json r with
      | inl _ => false
      | inr result =>
          match get_prop result "success" with
          | inl _ => false
          | inr flag => truthy flag
          end
      end
  end.

(** The three ways the [try] block can end, with what each leaves behind
    (lines 109-112, 114-115 and 118-120). *)
Inductive Ending : Type :=
| Shown (src count : JsValue)
| Refused (shown : JsValue)
| Caught (e : JsError).

Definition ending_effects (en : Ending) : list Effect :=
  match en with
  | Shown src count =>
      [SetHighlightedImageSrc src; SetTextRegionsDetected count;
       SetMessageBox (mkMessageBox true "🎉 Text detection complete!");
       SetTimeout hideMessageBox 3000;
       SetShowResultPage true]
  | Refused shown =>
      [SetError shown;
       SetMessageBox (mkMessageBox true "❌ Detection failed. Please try again.");
       SetTimeout hideMessageBox 3000]
  | Caught e =>
      [ConsoleError "Text detection failed:" e;
       SetError (VStr (connectivityMessage (message e)));
       SetMessageBox (mkMessageBox true "❌ Detection failed. Please check backend connection.");
       SetTimeout hideMessageBox 3000]
  end.

Definition ending_fits (net : FetchOutcome) (en : Ending) : Prop :=
  match en with
  | Shown _ _ => succeeded net = true
  | Refused shown => succeeded net = false /\ truthy shown = true
  | Caught _ => succeeded net = false
  end.

(** The effects every submission with a file starts with. *)
Definition request_prefix (image : File) : list Effect :=
  [SetIsProcessing true; SetError (VStr ""); SetHighlightedImageSrc VNull;
   SetTextRegionsDetected (VNum 0);
   ConsoleLog "Sending image to backend for text detection:" (VStr (name image));
   Fetch (API_BASE_URL ++ "/detect-text") "POST" "file" image].

Definition console_only (es : list Effect) : Prop :=
  Forall (fun e => match e with ConsoleLog _ _ => True | _ => False end) es.

(** ** Sessions: events in the order the browser delivers them

    A session is the page together with the requests still in flight, each
    with the render its handler was created in and what it will settle to
    (fixed by the network, revealed when it settles). *)
Record Session : Type := mkSession {
  page : World;
  pending : list (AppState * FetchOutcome)
}.

Inductive Event : Type :=
| Pick (files : list File)
| DragOver
| DragLeave
| Drop (files : list File)
| Remove
| ClickSubmit (net : FetchOutcome)
| Settle
| Back
| Wait (d : N).

Definition on_page (ss : Session) (handler : M unit) : Session :=
  mkSession (dispatch (page ss) handler) (pending ss).

(** One event.  An event whose element is not rendered, or is disabled,
    does not reach a handler: the drop zone, the picker, the remove button
    (shown with a selected file, line 360) and the submit button belong to
    the input page, the back button to the result page (line 198), and a
    disabled submit button (line 404) swallows the click. *)
Definition handle (ss : Session) (ev : Event) : Session :=
  let s := app (page ss) in
  match ev with
  | Pick files =>
      if showResultPage s then ss else on_page ss (handleFileChange files)
  | DragOver =>
      if showResultPage s then ss else on_page ss handleDragOver
  | DragLeave =>
      if showResultPage s then ss else on_page ss handleDragLeave
  | Drop files =>
      if showResultPage s then ss else on_page ss (handleDrop files)
  | Remove =>
      if showResultPage s then ss
      else match selectedImage s with
           | Some _ => on_page ss removeSelectedImage
           | None => ss
           end
  | ClickSubmit net =>
      if showResultPage s || submitDisabled s then ss
      else mkSession (submit_start (page ss) net) (pending ss ++ [(s, net)])
  | Settle =>
      match pending ss with
      | [] => ss
      | (s0, net) :: rest => mkSession (submit_finish s0 net (page ss)) rest
      end
  | Back =>
      if showResultPage s then on_page ss handleBackToInput else ss
  | Wait d => mkSession (advance d (page ss)) (pending ss)
  end.

Definition play (ss : Session) (evs : list Event) : Session :=
  fold_left handle evs ss.

Definition mounted : Session := mkSession initialWorld [].

(** What holds of every session played from the mounted page. *)
Record Coherent (ss : Session) : Prop := mkCoherent {
  coherent_timers : hide_timers_only (page ss);
  coherent_single : length (pending ss) <= 1;
  coherent_busy :
    isProcessing (app (page ss))
    = match pending ss with [] => false | _ :: _ => true end;
  coherent_input :
    pending ss <> [] -> showResultPage (app (page ss)) = false;
  coherent_result :
    showResultPage (app (page ss)) = false ->
    highlightedImageSrc (app (page ss)) = VNull /\
    textRegionsDetected (app (page ss)) = VNum 0;
  coherent_files :
    Forall (fun p => selectedImage (fst p) <> None) (pending ss)
}.

(** Every visible message has its hide timer pending, and every pending
    timer falls due within the delay. *)
Definition message_will_hide (w : World) : Prop :=
  (visible (messageBox (app w)) = true -> timers w <> []) /\
  Forall (fun p => (fst p <= now w + 3000)%N) (timers w).

(** The selected file, if any, has an image MIME type. *)
Definition selected_is_image (s : AppState) : Prop :=
  match selectedImage s with
  | Some file => String.prefix "image/" (type file) = true
  | None => True
  end.

(** ** Sample inputs *)

Definition sampleImage : File :=
  mkFile "scan.png" 2048 "image/png" [].

(** The page after [sampleImage] has been picked. *)
Definition readyWorld : World :=
  dispatch initialWorld (handleFileChange [sampleImage]).

Definition successResponse : Response :=
  mkResponse 200 "OK"
    (inr (VObj [("success", VBool true);
                ("highlighted_image", VStr "data:...");
                ("text_regions_detected", VNum 42)])).

Definition badImageResponse : Response :=
  mkResponse 400 "Bad Request" (inr (VObj [("error", VStr "bad image")])).

Definition gatewayResponse : Response :=
  mkResponse 502 "Bad Gateway" (inl (mkError "Unexpected token '<'")).

Definition refusedResponse : Response :=
  mkResponse 200 "OK"
    (inr (VObj [("success", VBool false); ("error", VStr "no text model")])).

Definition connectionRefused : FetchOutcome :=
  inl (mkError "Failed to fetch").

(** The page after a first attempt that could not reach the backend: the
    file is still selected and the error text of that attempt is shown. *)
Definition retryWorld : World := submit readyWorld connectionRefused.

(** Reduction is kept away from the status test and the decimal printer,
    which the proofs rewrite instead. *)
Arguments ok : simpl never.
Arguments string_of_Z : simpl never.

(** Enters [submit] for a page whose selected file is known. *)
Ltac enter_submit Hsel :=
  unfold submit, dispatch, processTextDetection; rewrite Hsel; cbn.

(** * Properties *)

(** ** Generic facts about computations and their replay *)

Lemma run_app (w : World) (es1 es2 : list Effect) :
  run w (es1 ++ es2) = run (run w es1) es2.
Proof. unfold run. apply fold_left_app. Qed.

Lemma effects_perform_bind {B : Type} (e : Effect) (k : unit -> M B) :
  effects (bind (perform e) k) = e :: effects (k tt).
Proof.
  unfold bind, perform, effects. destruct (k tt) as [es r]. reflexivity.
Qed.

Lemma effects_try_finally {A : Type} (body : M A) (e : Effect) :
  effects (try_finally body (perform e)) = effects body ++ [e].
Proof. destruct body as [es r]. reflexivity. Qed.

Lemma completion_try_finally {A : Type} (body : M A) (e : Effect) :
  completion (try_finally body (perform e)) = completion body.
Proof. destruct body as [es r]. reflexivity. Qed.

Lemma completion_perform_bind {B : Type} (e : Effect) (k : unit -> M B) :
  completion (bind (perform e) k) = completion (k tt).
Proof.
  unfold bind, perform, completion. destruct (k tt) as [es r]. reflexivity.
Qed.

(** A [catch] block that completes normally absorbs every exception of the
    body. *)
Lemma completion_try_catch (body : M unit) (handler : JsError -> M unit) :
  (forall e, completion (handler e) = inr tt) ->
  completion (try_catch body handler) = inr tt.
Proof.
  intros Hh. destruct body as [es [e | []]]; cbn.
  - specialize (Hh e). destruct (handler e) as [es' r]. exact Hh.
  - reflexivity.
Qed.

Lemma isProcessing_after_clear (w : World) (es : list Effect) :
  isProcessing (app (run w (es ++ [SetIsProcessing false]))) = false.
Proof. rewrite run_app. reflexivity. Qed.

(** ** Runs on sample inputs *)

Example pick_image_then_submit :
  app (submit readyWorld (inr successResponse))
  = mkAppState (Some sampleImage) (VStr "data:...") (VNum 42) false false
      (ocrFeatureMessage initialState) true (VStr "")
      (mkMessageBox true "🎉 Text detection complete!") false.
Proof. reflexivity. Qed.

Example pick_document_rejected :
  let w := dispatch readyWorld
             (handleFileChange [mkFile "scan.pdf" 4096 "application/pdf" []]) in
  selectedImage (app w) = None /\ truthy (error (app w)) = true.
Proof. split; reflexivity. Qed.

Example gateway_error_uses_status_text :
  error (app (submit readyWorld (inr gatewayResponse)))
  = VStr "Failed to connect to backend or process image: Bad Gateway. Please ensure the backend is running.".
Proof. reflexivity. Qed.

Example empty_status_text_uses_status_code :
  error (app (submit readyWorld
                (inr (mkResponse 500 "" (inl (mkError "Unexpected end of JSON input"))))))
  = VStr "Failed to connect to backend or process image: HTTP error! status: 500. Please ensure the backend is running.".
Proof. reflexivity. Qed.

Example null_payload_is_caught :
  error (app (submit readyWorld (inr (mkResponse 200 "OK" (inr VNull)))))
  = VStr "Failed to connect to backend or process image: Cannot read properties of null (reading 'success'). Please ensure the backend is running.".
Proof. reflexivity. Qed.

Example array_to_string :
  ToString (VArr [VNum 1; VNull; VStr "a"; VArr [VNum (-2); VBool true]])
  = Some "1,,a,-2,true".
Proof. reflexivity. Qed.

Example timers_fire_in_due_order :
  map fst (by_due_time [(5000%N, hideMessageBox); (3000%N, []); (5000%N, [])])
  = [3000%N; 5000%N; 5000%N] /\
  map snd (by_due_time [(5000%N, hideMessageBox); (3000%N, []); (5000%N, [])])
  = [[]; hideMessageBox; []].
Proof. split; reflexivity. Qed.

(** ** Selecting and dropping a file *)

(** C3. A file offered through the picker or dropped on the page is kept as
    the selected file, and the error text is emptied, when its MIME type
    starts with [image/]; otherwise an error text is set and no file is
    selected. *)
Theorem select_file_accepts_images_only (w : World) (file : File) (others : list File) :
  let picked := app (dispatch w (handleFileChange (file :: others))) in
  let dropped := app (dispatch w (handleDrop (file :: others))) in
  if String.prefix "image/" (type file) then
    selectedImage picked = Some file /\ error picked = VStr "" /\
    selectedImage dropped = Some file /\ error dropped = VStr ""
  else
    selectedImage picked = None /\ truthy (error picked) = true /\
    error picked = VStr "Please upload an image file (JPG, PNG). PDF support for detection is not yet available." /\
    selectedImage dropped = None /\ truthy (error dropped) = true /\
    error dropped = VStr "Please drop an image file (JPG, PNG).".
Proof.
  unfold dispatch, handleFileChange, handleDrop. cbn [hd_error].
  destruct (String.prefix "image/" (type file)); cbn; repeat split; reflexivity.
Qed.

(** C10. An event without a file leaves the page as it was: the picker
    handler changes nothing at all, the drop handler nothing but the
    drag-active flag; and a drop clears that flag whatever was dropped. *)
Theorem empty_file_list_changes_nothing (w : World) :
  dispatch w (handleFileChange []) = w /\
  (let w' := dispatch w (handleDrop []) in
   selectedImage (app w') = selectedImage (app w) /\
   error (app w') = error (app w) /\
   w' = step w (SetIsDragOver false)) /\
  (forall files : list File, isDragOver (app (dispatch w (handleDrop files))) = false).
Proof.
  split; [| split].
  - destruct w as [s t q]. reflexivity.
  - cbn. repeat split; reflexivity.
  - intros [| file others]; unfold dispatch, handleDrop; cbn [hd_error].
    + reflexivity.
    + destruct (String.prefix "image/" (type file)); reflexivity.
Qed.

(** ** Reset *)

(** C8. Going back to the input page clears the selected file, the result
    image, the count and the error text in one step and leaves the result
    page; the other cells, the clock and the timers are untouched. *)
Theorem reset_clears_file_and_result_together (w : World) :
  let w' := dispatch w handleBackToInput in
  selectedImage (app w') = None /\
  highlightedImageSrc (app w') = VNull /\
  textRegionsDetected (app w') = VNum 0 /\
  error (app w') = VStr "" /\
  showResultPage (app w') = false /\
  isDragOver (app w') = isDragOver (app w) /\
  isProcessing (app w') = isProcessing (app w) /\
  messageBox (app w') = messageBox (app w) /\
  now w' = now w /\ timers w' = timers w.
Proof. cbn. repeat split; reflexivity. Qed.

(** ** Submitting *)

(** C4. Submitting with no file selected sets the error text and does
    nothing else: no request, no timer, and every other cell (the busy flag,
    the previous result) keeps its value. *)
Theorem submit_without_file_only_sets_error (w : World) (net : FetchOutcome) :
  selectedImage (app w) = None ->
  let m := processTextDetection (app w) net in
  effects m = [SetError (VStr "Please select an image to process.")] /\
  completion m = inr tt /\
  (forall url method field file, ~ In (Fetch url method field file) (effects m)) /\
  error (app (submit w net)) = VStr "Please select an image to process." /\
  isProcessing (app (submit w net)) = isProcessing (app w) /\
  highlightedImageSrc (app (submit w net)) = highlightedImageSrc (app w) /\
  textRegionsDetected (app (submit w net)) = textRegionsDetected (app w) /\
  submit w net = step w (SetError (VStr "Please select an image to process.")).
Proof.
  intros Hnone. unfold submit, dispatch, processTextDetection.
  rewrite Hnone. cbn.
  repeat split; try reflexivity.
  intros url method field file [H | []]. discriminate H.
Qed.

Lemma submit_without_file_only_sets_error_witness :
  selectedImage (app initialWorld) = None /\
  error (app (submit initialWorld (inl (mkError "Failed to fetch"))))
  = VStr "Please select an image to process.".
Proof.
  split; [reflexivity |].
  apply (submit_without_file_only_sets_error initialWorld
           (inl (mkError "Failed to fetch"))).
  reflexivity.
Defined.

(** The effects of a submission with a file selected: the four setter
    calls, the console line and the request come first, in this order, and
    the [finally] block comes last. *)
Lemma submit_effects_shape (s : AppState) (image : File) (net : FetchOutcome) :
  selectedImage s = Some image ->
  exists middle : list Effect,
    effects (processTextDetection s net) =
      [SetIsProcessing true; SetError (VStr ""); SetHighlightedImageSrc VNull;
       SetTextRegionsDetected (VNum 0);
       ConsoleLog "Sending image to backend for text detection:" (VStr (name image));
       Fetch (API_BASE_URL ++ "/detect-text") "POST" "file" image]
      ++ middle ++ [SetIsProcessing false].
Proof.
  intros Hsel. unfold processTextDetection. rewrite Hsel.
  unfold setIsProcessing, setError, setHighlightedImageSrc, setTextRegionsDetected.
  rewrite !effects_perform_bind, effects_try_finally.
  match goal with
  | |- context [try_catch (bind (fetch ?u ?m ?f ?i ?n) ?k) ?h] =>
      set (K := k); set (H := h)
  end.
  destruct net as [e | response].
  - exists (effects (H e)). cbn -[H API_BASE_URL String.append].
    destruct (H e) as [es r]. reflexivity.
  - unfold fetch, lift. cbn -[K H API_BASE_URL String.append].
    destruct (K response) as [es [e | []]]; cbn -[H API_BASE_URL String.append].
    + destruct (H e) as [es' r]. exists (es ++ es'). reflexivity.
    + exists es. reflexivity.
Qed.

(** A submission never ends in an exception: the [catch] block handles
    whatever the [try] block throws. *)
Lemma submit_completes (s : AppState) (net : FetchOutcome) :
  completion (processTextDetection s net) = inr tt.
Proof.
  unfold processTextDetection. destruct (selectedImage s) as [image |].
  - unfold setIsProcessing, setError, setHighlightedImageSrc, setTextRegionsDetected.
    rewrite !completion_perform_bind, completion_try_finally.
    apply completion_try_catch. intros e. reflexivity.
  - reflexivity.
Qed.

(** C1. When the backend answers 2xx with a payload whose [success] flag
    holds, the submission stores the returned image and count, shows the
    success notification (and starts its hide timer), switches to the
    result page, and leaves the busy flag down. *)
Theorem submit_success_shows_result
    (w : World) (image : File) (r : Response)
    (props : list (string * JsValue)) (flag src count : JsValue) :
  selectedImage (app w) = Some image ->
  ok r = true ->
  json r = inr (VObj props) ->
  assoc "success" props = Some flag ->
  truthy flag = true ->
  assoc "highlighted_image" props = Some src ->
  assoc "text_regions_detected" props = Some count ->
  let w' := submit w (inr r) in
  highlightedImageSrc (app w') = src /\
  textRegionsDetected (app w') = count /\
  messageBox (app w') = mkMessageBox true "🎉 Text detection complete!" /\
  timers w' = timers w ++ [((now w + 3000)%N, hideMessageBox)] /\
  showResultPage (app w') = true /\
  isProcessing (app w') = false /\
  error (app w') = VStr "".
Proof.
  intros Hsel Hok Hjson Hflag Htrue Hsrc Hcount.
  enter_submit Hsel. rewrite Hok. cbn. rewrite Hjson. cbn.
  rewrite Hflag. cbn. rewrite Htrue. cbn. rewrite Hsrc, Hcount. cbn.
  repeat split; reflexivity.
Qed.

(** The payload of the specification's example: the result page carries
    the count 42. *)
Lemma submit_success_shows_result_witness :
  (selectedImage (app readyWorld) = Some sampleImage /\
   ok successResponse = true /\ truthy (VBool true) = true) /\
  (let w' := submit readyWorld (inr successResponse) in
   highlightedImageSrc (app w') = VStr "data:..." /\
   textRegionsDetected (app w') = VNum 42 /\
   messageBox (app w') = mkMessageBox true "🎉 Text detection complete!" /\
   timers w' = timers readyWorld ++ [((now readyWorld + 3000)%N, hideMessageBox)] /\
   showResultPage (app w') = true /\
   isProcessing (app w') = false /\
   error (app w') = VStr "").
Proof.
  split.
  - repeat split; reflexivity.
  - apply (submit_success_shows_result readyWorld sampleImage successResponse
             [("success", VBool true);
              ("highlighted_image", VStr "data:...");
              ("text_regions_detected", VNum 42)]
             (VBool true) (VStr "data:...") (VNum 42)); reflexivity.
Defined.

(** C2, as stated, fails: for the answer 400 with body
    [{"error":"bad image"}] the error text shown is not [bad image] but the
    connectivity sentence built around it. *)
Lemma http_failure_error_is_not_verbatim :
  error (app (submit readyWorld (inr badImageResponse))) <> VStr "bad image" /\
  error (app (submit readyWorld (inr badImageResponse)))
  = VStr "Failed to connect to backend or process image: bad image. Please ensure the backend is running.".
Proof. split; [discriminate | reflexivity]. Qed.

(** C2, amended. When the backend answers outside 2xx, the detail [m] is
    the [error] string of a JSON object body, or the status text when the
    body is not JSON; for a non-empty [m] the error text shown is the
    connectivity sentence around [m], the failure notification is shown, the
    page shown does not change, and the busy flag is down. *)
Theorem http_failure_error_is_wrapped
    (w : World) (image : File) (r : Response) (m : string) :
  selectedImage (app w) = Some image ->
  ok r = false ->
  (exists props, json r = inr (VObj props) /\ assoc "error" props = Some (VStr m))
  \/ ((exists e, json r = inl e) /\ statusText r = m) ->
  m <> "" ->
  let w' := submit w (inr r) in
  error (app w') = VStr (connectivityMessage m) /\
  messageBox (app w')
  = mkMessageBox true "❌ Detection failed. Please check backend connection." /\
  timers w' = timers w ++ [((now w + 3000)%N, hideMessageBox)] /\
  showResultPage (app w') = showResultPage (app w) /\
  isProcessing (app w') = false.
Proof.
  intros Hsel Hok Hbody Hm.
  assert (Htruthy : truthy (VStr m) = true).
  { cbn. destruct (String.eqb_spec m ""); [contradiction | reflexivity]. }
  enter_submit Hsel. rewrite Hok. cbn.
  destruct Hbody as [[props [Hjson Herr]] | [[e Hjson] Htext]]; rewrite Hjson; cbn.
  - rewrite Herr. unfold js_or. rewrite Htruthy. cbn.
    repeat split; reflexivity.
  - rewrite Htext. unfold js_or. rewrite Htruthy. cbn.
    repeat split; reflexivity.
Qed.

Lemma http_failure_error_is_wrapped_witness :
  (selectedImage (app readyWorld) = Some sampleImage /\
   ok badImageResponse = false /\ "bad image" <> "") /\
  error (app (submit readyWorld (inr badImageResponse)))
  = VStr (connectivityMessage "bad image").
Proof.
  split.
  - split; [reflexivity | split; [reflexivity | discriminate]].
  - apply (http_failure_error_is_wrapped readyWorld sampleImage badImageResponse
             "bad image").
    + reflexivity.
    + reflexivity.
    + left. exists [("error", VStr "bad image")]. split; reflexivity.
    + discriminate.
Defined.

(** C5. When the backend answers 2xx with a payload whose [success] flag
    does not hold, the error text shown is the payload's [error] message,
    or the fixed fallback when the payload has none; the failure
    notification is shown and the page shown does not change. *)
Theorem submit_refused_shows_payload_error
    (w : World) (image : File) (r : Response)
    (props : list (string * JsValue)) (flag : JsValue) :
  selectedImage (app w) = Some image ->
  ok r = true ->
  json r = inr (VObj props) ->
  get_prop (VObj props) "success" = inr flag ->
  truthy flag = false ->
  let w' := submit w (inr r) in
  (forall msg, assoc "error" props = Some (VStr msg) -> msg <> "" ->
     error (app w') = VStr msg) /\
  (assoc "error" props = None ->
     error (app w') = VStr "Unknown error occurred during detection.") /\
  messageBox (app w') = mkMessageBox true "❌ Detection failed. Please try again." /\
  timers w' = timers w ++ [((now w + 3000)%N, hideMessageBox)] /\
  showResultPage (app w') = showResultPage (app w) /\
  highlightedImageSrc (app w') = VNull /\
  isProcessing (app w') = false.
Proof.
  intros Hsel Hok Hjson Hflag Hfalse.
  enter_submit Hsel. rewrite Hok. cbn. rewrite Hjson. cbn.
  cbn in Hflag.
  destruct (assoc "success" props) as [x |]; inversion Hflag; subst;
    cbn; rewrite ?Hfalse; cbn.
  all: destruct (assoc "error" props) as [reported |] eqn:Herr; cbn;
    repeat split; try reflexivity; try discriminate.
  all: intros msg Hmsg Hne; inversion Hmsg; subst; unfold js_or; cbn;
    destruct (String.eqb_spec msg ""); [contradiction | reflexivity].
Qed.

Lemma submit_refused_shows_payload_error_witness :
  (selectedImage (app readyWorld) = Some sampleImage /\
   ok refusedResponse = true /\ truthy (VBool false) = false) /\
  error (app (submit readyWorld (inr refusedResponse))) = VStr "no text model".
Proof.
  split.
  - repeat split; reflexivity.
  - refine (proj1 (submit_refused_shows_payload_error readyWorld sampleImage
                     refusedResponse
                     [("success", VBool false); ("error", VStr "no text model")]
                     (VBool false) _ _ _ _ _) "no text model" _ _);
      try reflexivity; discriminate.
Defined.

(** C6. When the request is rejected, or a 2xx answer carries a body that
    is not JSON, the error text shown is the connectivity sentence around
    the exception's message, the failure notification is shown, and the busy
    flag is down. *)
Theorem transport_exception_reports_connectivity
    (w : World) (image : File) (net : FetchOutcome) (e : JsError) :
  selectedImage (app w) = Some image ->
  net = inl e \/ (exists r, net = inr r /\ ok r = true /\ json r = inl e) ->
  let w' := submit w net in
  error (app w') = VStr (connectivityMessage (message e)) /\
  messageBox (app w')
  = mkMessageBox true "❌ Detection failed. Please check backend connection." /\
  timers w' = timers w ++ [((now w + 3000)%N, hideMessageBox)] /\
  showResultPage (app w') = showResultPage (app w) /\
  isProcessing (app w') = false.
Proof.
  intros Hsel [-> | [r [-> [Hok Hjson]]]]; enter_submit Hsel.
  - repeat split; reflexivity.
  - rewrite Hok. cbn. rewrite Hjson. cbn. repeat split; reflexivity.
Qed.

Lemma transport_exception_reports_connectivity_witness :
  selectedImage (app readyWorld) = Some sampleImage /\
  (let w' := submit readyWorld connectionRefused in
   error (app w')
   = VStr "Failed to connect to backend or process image: Failed to fetch. Please ensure the backend is running." /\
   isProcessing (app w') = false).
Proof.
  split; [reflexivity |].
  pose proof (transport_exception_reports_connectivity readyWorld sampleImage
                connectionRefused (mkError "Failed to fetch")
                eq_refl (or_introl eq_refl)) as H.
  cbv zeta in H. split; [exact (proj1 H) | exact (proj2 (proj2 (proj2 (proj2 H))))].
Defined.

(** C7. Whatever the request settles to, a submission with a file
    completes normally with the busy flag down.  The setter calls made
    before the [await] (lines 77-80) belong to one run of the click handler
    and React commits them together: the first page of the submission is
    the one the request leaves from, and on it the busy flag is up with
    error, image and count already cleared. *)
Theorem submit_busy_flag_protocol (w : World) (image : File) (net : FetchOutcome) :
  selectedImage (app w) = Some image ->
  let m := processTextDetection (app w) net in
  completion m = inr tt /\
  isProcessing (app (submit w net)) = false /\
  until_request (effects m) = request_prefix image /\
  (let sent := submit_start w net in
   isProcessing (app sent) = true /\
   error (app sent) = VStr "" /\
   highlightedImageSrc (app sent) = VNull /\
   textRegionsDetected (app sent) = VNum 0).
Proof.
  intros Hsel m.
  destruct (submit_effects_shape (app w) image net Hsel) as [middle Hshape].
  split; [apply submit_completes |].
  split; [| split].
  - unfold submit, dispatch. fold m. subst m. rewrite Hshape, app_assoc.
    apply isProcessing_after_clear.
  - subst m. rewrite Hshape. reflexivity.
  - unfold submit_start. fold m. subst m. rewrite Hshape. cbn.
    repeat split; reflexivity.
Qed.

Lemma submit_busy_flag_protocol_witness :
  (selectedImage (app retryWorld) = Some sampleImage /\
   truthy (error (app retryWorld)) = true) /\
  isProcessing (app (submit retryWorld (inr successResponse))) = false /\
  isProcessing (app (submit_start retryWorld (inr successResponse))) = true /\
  error (app (submit_start retryWorld (inr successResponse))) = VStr "".
Proof.
  split; [split; reflexivity |].
  pose proof (submit_busy_flag_protocol retryWorld sampleImage
                (inr successResponse) eq_refl) as H.
  cbv zeta in H.
  split; [exact (proj1 (proj2 H)) |].
  split; [exact (proj1 (proj2 (proj2 (proj2 H)))) |].
  exact (proj1 (proj2 (proj2 (proj2 (proj2 H))))).
Defined.

(** ** The notifier *)

Lemma filter_none_due (t : N) (q : list (N * list Effect)) :
  Forall (fun p => (t < fst p)%N) q ->
  filter (fun p => (fst p <=? t)%N) q = [].
Proof.
  induction 1 as [| p q Hp _ IH]; cbn.
  - reflexivity.
  - rewrite IH. destruct (N.leb_spec (fst p) t); [lia | reflexivity].
Qed.

Section DueOrder.

Variable P : N * list Effect -> Prop.

Lemma insert_timer_Forall (p : N * list Effect) (q : list (N * list Effect)) :
  P p -> Forall P q -> Forall P (insert_timer p q).
Proof.
  intros Hp Hq. induction Hq as [| p' q Hp' Hq IH]; cbn.
  - constructor; [exact Hp | constructor].
  - destruct (fst p' <=? fst p)%N; repeat constructor; assumption.
Qed.

Lemma insert_all_Forall (q sorted : list (N * list Effect)) :
  Forall P q -> Forall P sorted ->
  Forall P (fold_left (fun acc p => insert_timer p acc) q sorted).
Proof.
  intros Hq. revert sorted. induction Hq as [| p q Hp Hq IH]; intros sorted Hs; cbn.
  - exact Hs.
  - apply IH. apply insert_timer_Forall; assumption.
Qed.

Lemma by_due_time_Forall (q : list (N * list Effect)) :
  Forall P q -> Forall P (by_due_time q).
Proof. intros Hq. apply insert_all_Forall; [exact Hq | constructor]. Qed.

End DueOrder.

Lemma insert_timer_length (p : N * list Effect) (q : list (N * list Effect)) :
  length (insert_timer p q) = S (length q).
Proof.
  induction q as [| p' q IH]; cbn; [reflexivity |].
  destruct (fst p' <=? fst p)%N; cbn; [rewrite IH |]; reflexivity.
Qed.

Lemma by_due_time_length (q : list (N * list Effect)) :
  length (by_due_time q) = length q.
Proof.
  unfold by_due_time.
  enough (H : forall sorted,
             length (fold_left (fun acc p => insert_timer p acc) q sorted)
             = length q + length sorted) by (rewrite H; cbn; lia).
  induction q as [| p q IH]; intros sorted; cbn; [reflexivity |].
  rewrite IH, insert_timer_length. lia.
Qed.

(** Running hide callbacks touches the message box only, and one of them
    is enough to hide it. *)
Lemma fire_hide_timers_frame (due : list (N * list Effect)) (w : World) :
  Forall (fun p => snd p = hideMessageBox) due ->
  let w' := fold_left (fun w0 p => run w0 (snd p)) due w in
  timers w' = timers w /\ now w' = now w /\
  (messageBox (app w) = mkMessageBox false "" ->
   messageBox (app w') = mkMessageBox false "") /\
  (due <> [] -> messageBox (app w') = mkMessageBox false "").
Proof.
  intros Hdue. revert w.
  induction Hdue as [| p due Hp Hdue IH]; intros w; cbn.
  - repeat split; try reflexivity; [tauto | congruence].
  - rewrite Hp. cbn.
    destruct (IH (step w (SetMessageBox (mkMessageBox false "")))) as (Ht & Hn & Hkeep & _).
    cbn in Ht, Hn, Hkeep. repeat split.
    + exact Ht.
    + exact Hn.
    + intros _. apply Hkeep. reflexivity.
    + intros _. apply Hkeep. reflexivity.
Qed.

(** C9, as stated, fails: the timer of an earlier notification is never
    cancelled.  A failed attempt, a retry two seconds later that the
    backend refuses: one second after the second notification appeared, the
    first timer hides it. *)
Lemma stale_timer_hides_newer_message :
  (let w := submit (advance 2000 retryWorld) (inr refusedResponse) in
   messageBox (app w) = mkMessageBox true "❌ Detection failed. Please try again." /\
   messageBox (app (advance 1000 w)) = mkMessageBox false "") /\
  ~ visible_for_own_delay.
Proof.
  split.
  - split; reflexivity.
  - intros Hclaim.
    assert (Hreach : reachable (advance 2000 retryWorld)).
    { unfold retryWorld, readyWorld.
      apply reach_wait, reach_submit, reach_pick, reach_mount. }
    specialize (Hclaim (advance 2000 retryWorld) "second" 1000%N Hreach eq_refl).
    discriminate Hclaim.
Qed.

(** C9, amended. [notify] replaces whatever message was there by the new
    one, visible at once, and queues a hide timer 3000 ms ahead; nothing
    cancels a timer.  On a page whose pending timers are hide timers (every
    reachable page is one), once 3000 ms or more have passed the message
    box is hidden and empty.  Before that the message is still visible
    provided no timer queued earlier falls due in between. *)
Theorem notify_shows_then_hides (w : World) (msg : string) :
  let w1 := notify w msg in
  messageBox (app w1) = mkMessageBox true msg /\
  timers w1 = timers w ++ [((now w + 3000)%N, hideMessageBox)] /\
  (forall d : N, (3000 <= d)%N -> hide_timers_only w ->
     messageBox (app (advance d w1)) = mkMessageBox false "") /\
  (forall d : N, (d < 3000)%N ->
     Forall (fun p => (now w + d < fst p)%N) (timers w) ->
     messageBox (app (advance d w1)) = mkMessageBox true msg).
Proof.
  intros w1.
  assert (Hw1 : w1 = mkWorld (app (step w (SetMessageBox (mkMessageBox true msg))))
                       (now w) (timers w ++ [((now w + 3000)%N, hideMessageBox)]))
    by reflexivity.
  rewrite Hw1. clear w1 Hw1.
  split; [reflexivity | split; [reflexivity | split]].
  - intros d Hd Hq. unfold advance. cbn [timers now app].
    match goal with
    | |- messageBox (app (fold_left _ (by_due_time ?q) ?w0)) = _ =>
        set (due := q); set (start := w0)
    end.
    assert (Hall : Forall (fun p => snd p = hideMessageBox) due).
    { subst due. apply Forall_forall. intros p Hin.
      apply filter_In in Hin. destruct Hin as [Hin _].
      apply in_app_or in Hin. destruct Hin as [Hin | [<- | []]].
      - exact (proj1 (Forall_forall _ _) Hq p Hin).
      - reflexivity. }
    assert (Hne : by_due_time due <> []).
    { intros Hnil. apply (f_equal (@length _)) in Hnil.
      rewrite by_due_time_length in Hnil. subst due.
      rewrite filter_app, length_app in Hnil. cbn [filter fst] in Hnil.
      destruct (N.leb_spec (now w + 3000) (now w + d)); [| lia].
      cbn in Hnil. lia. }
    apply (fire_hide_timers_frame (by_due_time due) start
             (by_due_time_Forall _ due Hall)).
    exact Hne.
  - intros d Hd Hq. unfold advance. cbn [timers now app].
    rewrite filter_app, (filter_none_due _ _ Hq). cbn [filter fst].
    destruct (N.leb_spec (now w + 3000) (now w + d)); [lia |].
    reflexivity.
Qed.

(** ** Every reachable page has hide timers only *)

Create HintDb timers.

Lemma sht_ret {A : Type} (a : A) :
  starts_hide_timers_only (effects (ret a)).
Proof. constructor. Qed.

Lemma sht_lift {A : Type} (r : JsError + A) :
  starts_hide_timers_only (effects (lift r)).
Proof. constructor. Qed.

Lemma sht_throw {A : Type} (e : JsError) :
  starts_hide_timers_only (effects (@throw A e)).
Proof. constructor. Qed.





Lemma sht_newError (v : JsValue) :
  starts_hide_timers_only (effects (newError v)).
Proof.
  unfold newError. destruct v; try destruct (ToString _); constructor.
Qed.

Lemma sht_showCustomMessageBox (msg : string) :
  starts_hide_timers_only (effects (showCustomMessageBox msg)).
Proof. repeat constructor. Qed.

#[local] Hint Resolve sht_ret sht_lift sht_throw sht_newError
  sht_showCustomMessageBox : timers.





Lemma advance_keeps_hide_timers (d : N) (w : World) :
  hide_timers_only w -> hide_timers_only (advance d w).
Proof.
  intros Hw. unfold advance.
  match goal with
  | |- hide_timers_only (fold_left _ (by_due_time ?q) ?w0) =>
      set (due := q); set (start := w0)
  end.
  assert (Hdue : Forall (fun p => snd p = hideMessageBox) (by_due_time due)).
  { apply by_due_time_Forall. subst due. apply Forall_forall. intros p Hin.
    apply filter_In in Hin. exact (proj1 (Forall_forall _ _) Hw p (proj1 Hin)). }
  unfold hide_timers_only.
  rewrite (proj1 (fire_hide_timers_frame _ start Hdue)).
  subst start. cbn [timers]. apply Forall_forall. intros p Hin.
  apply filter_In in Hin. exact (proj1 (Forall_forall _ _) Hw p (proj1 Hin)).
Qed.


(** ** The shape of a submission *)

Lemma js_or_truthy (a b : JsValue) :
  truthy b = true -> truthy (js_or a b) = true.
Proof. intros Hb. unfold js_or. destruct (truthy a) eqn:Ha; assumption. Qed.

Lemma newError_cases (v : JsValue) :
  exists e : JsError, newError v = ([], inl e) \/ newError v = ([], inr e).
Proof.
  unfold newError. destruct v; try destruct (ToString _);
    eexists; (left; reflexivity) || (right; reflexivity).
Qed.

Ltac settle_ending :=
  unfold ending_fits, succeeded;
  repeat match goal with
         | H : ok _ = _ |- _ => rewrite H
         | H : json _ = _ |- _ => rewrite H
         end;
  cbn -[js_or String.append];
  repeat match goal with
         | H : assoc _ _ = _ |- _ => rewrite H
         | H : truthy _ = _ |- _ => rewrite H
         end;
  cbn -[js_or String.append];
  repeat split;
  try reflexivity; try (apply js_or_truthy; reflexivity).

Ltac finish_ending :=
  split;
  [ cbn -[js_or String.append]; reflexivity
  | split; [repeat constructor | settle_ending] ].

Ltac with_logs en :=
  match goal with
  | |- context [Fetch _ _ _ _ :: ConsoleLog ?l ?v :: _] =>
      exists [ConsoleLog l v], en
  | _ => exists [], en
  end;
  finish_ending.

Ltac pick_ending :=
  match goal with
  | |- context [ConsoleError _ ?e :: _] => solve [with_logs (Caught e)]
  | |- context [SetHighlightedImageSrc ?src :: SetTextRegionsDetected ?c
                :: SetMessageBox _ :: _] => solve [with_logs (Shown src c)]
  | |- context [SetError ?v :: SetMessageBox _ :: _] => solve [with_logs (Refused v)]
  end.

(** Every submission with a file performs the request prefix, at most a
    console line, one of the three endings, and the [finally] block. *)
Lemma submit_effects_cases (s : AppState) (image : File) (net : FetchOutcome) :
  selectedImage s = Some image ->
  exists (logs : list Effect) (en : Ending),
    effects (processTextDetection s net)
    = request_prefix image ++ logs ++ ending_effects en ++ [SetIsProcessing false]
    /\ console_only logs /\ ending_fits net en.
Proof.
  intros Hsel. unfold processTextDetection. rewrite Hsel.
  destruct net as [e | r]; [cbn -[js_or String.append]; pick_ending |].
  cbn -[js_or String.append]. destruct (ok r) eqn:Hok; cbn -[js_or String.append].
  - destruct (json r) as [e | result] eqn:Hjson; cbn -[js_or String.append]; [pick_ending |].
    destruct result as [| | b | n | t | items | props]; cbn -[js_or String.append];
      try pick_ending.
    destruct (assoc "success" props) as [flag |] eqn:Hflag; cbn -[js_or String.append].
    + destruct (truthy flag) eqn:Htruthy; cbn -[js_or String.append].
      * destruct (assoc "highlighted_image" props);
          destruct (assoc "text_regions_detected" props); cbn -[js_or String.append];
          pick_ending.
      * destruct (assoc "error" props); cbn -[js_or String.append]; pick_ending.
    + destruct (assoc "error" props); cbn -[js_or String.append]; pick_ending.
  - destruct (json r) as [e | errorData] eqn:Hjson; cbn -[js_or String.append newError].
    + match goal with
      | |- context [newError ?v] =>
          destruct (newError_cases v) as [err [-> | ->]]
      end; cbn -[js_or String.append]; pick_ending.
    + destruct errorData as [| | b | n | t | items | props];
        cbn -[js_or String.append newError]; try pick_ending;
        try (destruct (assoc "error" props) as [reported |];
             cbn -[js_or String.append newError]).
      all: match goal with
           | |- context [newError ?v] =>
               destruct (newError_cases v) as [err [-> | ->]]
           end; cbn -[js_or String.append]; pick_ending.
Qed.

Lemma run_console_only (logs : list Effect) (w : World) :
  console_only logs -> run w logs = w.
Proof.
  induction 1 as [| e logs He _ IH]; cbn; [reflexivity |].
  destruct e; try contradiction. exact IH.
Qed.

Lemma requests_console_only (logs : list Effect) :
  console_only logs -> requests logs = [].
Proof.
  induction 1 as [| e logs He _ IH]; cbn; [reflexivity |].
  destruct e; try contradiction. exact IH.
Qed.

(** What settles a request, on whatever page: one of the three endings and
    the [finally] block. *)
Lemma submit_finish_cases (s : AppState) (image : File) (net : FetchOutcome) (w : World) :
  selectedImage s = Some image ->
  exists en : Ending,
    ending_fits net en /\
    submit_finish s net w = run w (ending_effects en ++ [SetIsProcessing false]).
Proof.
  intros Hsel.
  destruct (submit_effects_cases s image net Hsel) as (logs & en & Hes & Hlogs & Hfit).
  exists en. split; [exact Hfit |].
  unfold submit_finish. rewrite Hes. cbn [request_prefix List.app after_request].
  rewrite run_app, (run_console_only logs w Hlogs). reflexivity.
Qed.

Lemma submit_start_prefix (w : World) (image : File) (net : FetchOutcome) :
  selectedImage (app w) = Some image ->
  submit_start w net = run w (request_prefix image).
Proof.
  intros Hsel.
  destruct (submit_effects_cases (app w) image net Hsel) as (logs & en & Hes & _).
  unfold submit_start. rewrite Hes. reflexivity.
Qed.

Lemma submit_in_two_halves (w : World) (net : FetchOutcome) :
  submit w net = submit_finish (app w) net (submit_start w net).
Proof.
  unfold submit, dispatch, submit_finish, submit_start.
  rewrite <- run_app. f_equal.
  induction (effects (processTextDetection (app w) net)) as [| e es IH];
    [reflexivity |].
  destruct e; cbn; try (f_equal; exact IH); reflexivity.
Qed.

(** ** What every submission does, whatever the backend answers *)

Lemma requests_of_submission (s : AppState) (net : FetchOutcome) :
  requests (effects (processTextDetection s net))
  = match selectedImage s with
    | Some image => [Fetch (API_BASE_URL ++ "/detect-text") "POST" "file" image]
    | None => []
    end.
Proof.
  destruct (selectedImage s) as [image |] eqn:Hsel.
  - destruct (submit_effects_cases s image net Hsel) as (logs & en & Hes & Hlogs & _).
    rewrite Hes. unfold requests. rewrite !filter_app.
    fold (requests logs). rewrite (requests_console_only logs Hlogs).
    destruct en; reflexivity.
  - unfold processTextDetection. rewrite Hsel. reflexivity.
Qed.

(** X1. A submission sends exactly one request, a POST of the selected
    file under the field [file] to the detect-text endpoint, whatever the
    request settles to (there is no retry); with no file selected it sends
    none. *)
Theorem submission_sends_exactly_one_request (s : AppState) (net : FetchOutcome) :
  requests (effects (processTextDetection s net))
  = match selectedImage s with
    | Some image =>
        [Fetch "https://ocr-production-0ada.up.railway.app/detect-text"
           "POST" "file" image]
    | None => []
    end.
Proof.
  rewrite requests_of_submission.
  destruct (selectedImage s); reflexivity.
Qed.

Lemma notifications_console_only (logs : list Effect) :
  console_only logs -> notifications logs = [].
Proof.
  induction 1 as [| e logs He _ IH]; cbn; [reflexivity |].
  destruct e; try contradiction. exact IH.
Qed.

(** X2. A submission with a file calls the notifier exactly once: among
    its calls there is one message-box setter, with the success message
    when the submission succeeded and one of the two failure messages
    otherwise, and one hide timer of 3000 ms; the message box cell ends
    with that message and the page has exactly one more timer, 3000 ms
    ahead.  With no file selected the notifier is not called. *)
Theorem submission_notifies_exactly_once (w : World) (net : FetchOutcome) :
  let m := processTextDetection (app w) net in
  match selectedImage (app w) with
  | None => notifications (effects m) = []
  | Some _ =>
      exists text : string,
        notifications (effects m)
        = [SetMessageBox (mkMessageBox true text); SetTimeout hideMessageBox 3000] /\
        (if succeeded net then text = "🎉 Text detection complete!"
         else text = "❌ Detection failed. Please try again." \/
              text = "❌ Detection failed. Please check backend connection.") /\
        messageBox (app (submit w net)) = mkMessageBox true text /\
        timers (submit w net) = timers w ++ [((now w + 3000)%N, hideMessageBox)]
  end.
Proof.
  intros m. subst m.
  destruct (selectedImage (app w)) as [image |] eqn:Hsel.
  - destruct (submit_effects_cases (app w) image net Hsel)
      as (logs & en & Hes & Hlogs & Hfit).
    unfold submit, dispatch. rewrite Hes.
    unfold notifications. rewrite !filter_app. fold (notifications logs).
    rewrite (notifications_console_only logs Hlogs).
    rewrite !run_app, (run_console_only logs _ Hlogs).
    destruct en; cbn in Hfit; [| destruct Hfit as [Hfit _] |]; rewrite Hfit;
      eexists; (split; [reflexivity |]); cbn; repeat split; auto.
  - unfold processTextDetection. rewrite Hsel. reflexivity.
Qed.

(** X3. When a request settles, on whatever page the user has made of it
    in the meantime, the busy flag goes down and the selected file is left
    alone; a success opens the result page and leaves the error text as it
    is; anything else leaves page, image and count as they are and sets a
    non-empty error text. *)
Theorem settled_request_shows_result_or_error
    (s : AppState) (image : File) (net : FetchOutcome) (w : World) :
  selectedImage s = Some image ->
  let w' := submit_finish s net w in
  isProcessing (app w') = false /\
  selectedImage (app w') = selectedImage (app w) /\
  if succeeded net then
    showResultPage (app w') = true /\ error (app w') = error (app w)
  else
    showResultPage (app w') = showResultPage (app w) /\
    highlightedImageSrc (app w') = highlightedImageSrc (app w) /\
    textRegionsDetected (app w') = textRegionsDetected (app w) /\
    truthy (error (app w')) = true.
Proof.
  intros Hsel w'. subst w'.
  destruct (submit_finish_cases s image net w Hsel) as (en & Hfit & ->).
  destruct en; cbn in Hfit; [| destruct Hfit as [Hfit Hshown] |]; rewrite Hfit;
    cbn; repeat split; auto.
Qed.

Lemma settled_request_shows_result_or_error_witness :
  selectedImage (app readyWorld) = Some sampleImage /\
  isProcessing (app (submit_finish (app readyWorld) connectionRefused
                       (dispatch (submit_start readyWorld connectionRefused)
                          removeSelectedImage))) = false.
Proof.
  split; [reflexivity |].
  exact (proj1 (settled_request_shows_result_or_error (app readyWorld) sampleImage
                  connectionRefused
                  (dispatch (submit_start readyWorld connectionRefused)
                     removeSelectedImage) eq_refl)).
Defined.

Ltac enter_submit_folded Hsel :=
  unfold submit, dispatch, processTextDetection; rewrite Hsel;
  cbn -[js_or String.append newError].

(** X4. An answer outside 2xx that carries no usable detail is reported by
    its status code: when the body is not JSON and the status text is
    empty, or when the body is JSON without a truthy [error] property, the
    error text is the connectivity sentence around
    [HTTP error! status: <code>]. *)
Theorem http_failure_without_detail_reports_status
    (w : World) (image : File) (r : Response) :
  selectedImage (app w) = Some image ->
  ok r = false ->
  ((exists e, json r = inl e) /\ statusText r = "")
  \/ (exists body reported,
        json r = inr body /\ get_prop body "error" = inr reported /\
        truthy reported = false) ->
  error (app (submit w (inr r)))
  = VStr (connectivityMessage ("HTTP error! status: " ++ string_of_Z (status r))).
Proof.
  intros Hsel Hok Hbody. enter_submit_folded Hsel. rewrite Hok.
  cbn -[js_or String.append newError].
  destruct Hbody as [[[e Hjson] Htext] | (body & reported & Hjson & Hget & Hfalsy)];
    rewrite Hjson; cbn -[js_or String.append newError].
  - rewrite Htext. reflexivity.
  - rewrite Hget. cbn -[js_or String.append newError].
    unfold js_or. rewrite Hfalsy. reflexivity.
Qed.

Lemma http_failure_without_detail_reports_status_witness :
  (selectedImage (app readyWorld) = Some sampleImage /\
   ok (mkResponse 503 "" (inr (VObj [("detail", VStr "overloaded")]))) = false) /\
  error (app (submit readyWorld
                (inr (mkResponse 503 "" (inr (VObj [("detail", VStr "overloaded")]))))))
  = VStr "Failed to connect to backend or process image: HTTP error! status: 503. Please ensure the backend is running.".
Proof.
  split; [split; reflexivity |].
  apply (http_failure_without_detail_reports_status readyWorld sampleImage
           (mkResponse 503 "" (inr (VObj [("detail", VStr "overloaded")])))).
  - reflexivity.
  - reflexivity.
  - right. exists (VObj [("detail", VStr "overloaded")]), VUndefined.
    repeat split; reflexivity.
Defined.

(** X5. A 2xx answer whose JSON body has neither a truthy [success] nor a
    truthy [error] (an empty object, an empty error string, a bare string,
    number or array) is reported as
    [Unknown error occurred during detection.], with the try-again
    notification, and the result page is not opened. *)
Theorem answer_without_success_or_error_reports_unknown
    (w : World) (image : File) (r : Response) (body flag reported : JsValue) :
  selectedImage (app w) = Some image ->
  ok r = true ->
  json r = inr body ->
  get_prop body "success" = inr flag -> truthy flag = false ->
  get_prop body "error" = inr reported -> truthy reported = false ->
  let w' := submit w (inr r) in
  error (app w') = VStr "Unknown error occurred during detection." /\
  toast (app w') = Some "❌ Detection failed. Please try again." /\
  showResultPage (app w') = showResultPage (app w).
Proof.
  intros Hsel Hok Hjson Hflag Hfalse Hget Hfalsy.
  enter_submit_folded Hsel. rewrite Hok. cbn -[js_or String.append newError].
  rewrite Hjson. cbn -[js_or String.append newError].
  rewrite Hflag. cbn -[js_or String.append newError].
  rewrite Hfalse, Hget. cbn -[js_or String.append newError].
  unfold js_or. rewrite Hfalsy. repeat split; reflexivity.
Qed.

Lemma answer_without_success_or_error_reports_unknown_witness :
  (selectedImage (app readyWorld) = Some sampleImage /\
   ok (mkResponse 200 "OK" (inr (VArr []))) = true) /\
  error (app (submit readyWorld (inr (mkResponse 200 "OK" (inr (VArr []))))))
  = VStr "Unknown error occurred during detection.".
Proof.
  split; [split; reflexivity |].
  exact (proj1 (answer_without_success_or_error_reports_unknown readyWorld
                  sampleImage (mkResponse 200 "OK" (inr (VArr []))) (VArr [])
                  VUndefined VUndefined
                  eq_refl eq_refl eq_refl eq_refl eq_refl eq_refl eq_refl)).
Defined.

(** X6. A failed submission can be tried again.  On the input page, when
    the submission did not succeed and the error it stored is a text, the
    same file is still selected, the busy flag is down, the banner shows
    that text, and the submit button is rendered and enabled. *)
Theorem failed_submission_allows_retry
    (w : World) (image : File) (net : FetchOutcome) (text : string) :
  selectedImage (app w) = Some image ->
  showResultPage (app w) = false ->
  succeeded net = false ->
  error (app (submit w net)) = VStr text ->
  let w' := submit w net in
  selectedImage (app w') = Some image /\
  isProcessing (app w') = false /\
  errorBanner (app w') = Some (VStr text) /\
  submitButton (app w') = Some false /\
  isDragOver (app w') = isDragOver (app w).
Proof.
  intros Hsel Hshow Hfail Herr w'. subst w'.
  unfold submitButton, submitDisabled, errorBanner. rewrite Herr. revert Herr.
  rewrite submit_in_two_halves, (submit_start_prefix w image net Hsel).
  destruct (submit_finish_cases (app w) image net (run w (request_prefix image)) Hsel)
    as (en & Hfit & ->).
  destruct en; cbn in Hfit; [| destruct Hfit as [_ Hshown] |].
  - rewrite Hfail in Hfit. discriminate Hfit.
  - intros Herr. cbn in Herr. subst shown.
    cbn -[truthy]. rewrite Hsel, Hshow, Hshown.
    repeat split; reflexivity.
  - intros Herr. cbn in Herr. inversion Herr; subst text.
    cbn. rewrite Hsel, Hshow.
    repeat split; reflexivity.
Qed.

Lemma failed_submission_allows_retry_witness :
  (selectedImage (app retryWorld) = Some sampleImage /\
   showResultPage (app retryWorld) = false /\
   succeeded (inr gatewayResponse) = false) /\
  submitButton (app (submit retryWorld (inr gatewayResponse))) = Some false.
Proof.
  split; [repeat split; reflexivity |].
  exact (proj1 (proj2 (proj2 (proj2
           (failed_submission_allows_retry retryWorld sampleImage
              (inr gatewayResponse)
              (connectivityMessage "Bad Gateway")
              eq_refl eq_refl eq_refl eq_refl))))).
Defined.

(** X7. The remove button works while a request is in flight.  If the
    user removes the file after the click and the request then succeeds
    with an image text and a numeric count, the result page opens with no
    file selected and the image panel is captioned [Processed Image]; had
    the file not been removed, the caption would be its name. *)
Theorem late_success_after_file_removed
    (w : World) (image : File) (r : Response)
    (props : list (string * JsValue)) (flag : JsValue) (src : string) (count : Z) :
  selectedImage (app w) = Some image ->
  ok r = true ->
  json r = inr (VObj props) ->
  assoc "success" props = Some flag ->
  truthy flag = true ->
  assoc "highlighted_image" props = Some (VStr src) ->
  src <> "" ->
  assoc "text_regions_detected" props = Some (VNum count) ->
  let clicked := submit_start w (inr r) in
  let removed := dispatch clicked removeSelectedImage in
  let settled := submit_finish (app w) (inr r) removed in
  isProcessing (app clicked) = true /\
  showResultPage (app settled) = true /\
  selectedImage (app settled) = None /\
  highlightedImageSrc (app settled) = VStr src /\
  textRegionsDetected (app settled) = VNum count /\
  resultCaption (app settled) = Some "Processed Image" /\
  resultCaption (app (submit_finish (app w) (inr r) clicked)) = Some (name image) /\
  isProcessing (app settled) = false.
Proof.
  intros Hsel Hok Hjson Hflag Htrue Hsrc Hne Hcount clicked removed settled.
  subst settled removed clicked.
  assert (Htruthy : truthy (VStr src) = true).
  { cbn. destruct (String.eqb_spec src ""); [contradiction | reflexivity]. }
  rewrite (submit_start_prefix w image (inr r) Hsel).
  unfold submit_finish, dispatch, processTextDetection, resultCaption.
  rewrite Hsel. cbn. rewrite Hok. cbn. rewrite Hjson. cbn.
  rewrite Hflag. cbn. rewrite Htrue. cbn. rewrite Hsrc, Hcount. cbn.
  cbn in Htruthy. rewrite Htruthy, Hsel.
  repeat split; reflexivity.
Qed.

Lemma late_success_after_file_removed_witness :
  (selectedImage (app readyWorld) = Some sampleImage /\
   ok successResponse = true /\ truthy (VBool true) = true /\ "data:..." <> "") /\
  resultCaption
    (app (submit_finish (app readyWorld) (inr successResponse)
            (dispatch (submit_start readyWorld (inr successResponse))
               removeSelectedImage)))
  = Some "Processed Image".
Proof.
  split.
  - split; [reflexivity | split; [reflexivity | split; [reflexivity | discriminate]]].
  - refine (proj1 (proj2 (proj2 (proj2 (proj2 (proj2
              (late_success_after_file_removed readyWorld sampleImage
                 successResponse
                 [("success", VBool true);
                  ("highlighted_image", VStr "data:...");
                  ("text_regions_detected", VNum 42)]
                 (VBool true) "data:..." 42%Z
                 eq_refl eq_refl eq_refl eq_refl eq_refl eq_refl _ eq_refl)))))));
      discriminate.
Defined.

(** ** More on selecting a file *)

(** X8. Dropping files is leaving the drop zone and then picking the same
    files, as long as the first file is an image or there is none; for a
    rejected first file the two paths differ in the wording of the error
    only. *)
Theorem drop_is_leave_then_pick (w : World) (files : list File) :
  let dropped := dispatch w (handleDrop files) in
  let picked := dispatch (dispatch w handleDragLeave) (handleFileChange files) in
  match hd_error files with
  | Some file =>
      if String.prefix "image/" (type file) then dropped = picked
      else dropped = step picked (SetError (VStr "Please drop an image file (JPG, PNG)."))
  | None => dropped = picked
  end.
Proof.
  unfold dispatch, handleDrop, handleFileChange.
  destruct files as [| file others]; cbn [hd_error]; [reflexivity |].
  destruct (String.prefix "image/" (type file)); reflexivity.
Qed.

(** X9. Of several files offered at once only the first one counts: the
    files after it change nothing, so a non-image first file rejects the
    whole selection even when images follow. *)
Theorem only_first_file_counts (w : World) (file : File) (others : list File) :
  dispatch w (handleFileChange (file :: others)) = dispatch w (handleFileChange [file]) /\
  dispatch w (handleDrop (file :: others)) = dispatch w (handleDrop [file]) /\
  (String.prefix "image/" (type file) = false ->
   selectedImage (app (dispatch w (handleFileChange (file :: others)))) = None /\
   selectedImage (app (dispatch w (handleDrop (file :: others)))) = None).
Proof.
  split; [reflexivity | split; [reflexivity |]].
  intros Hreject. unfold dispatch, handleFileChange, handleDrop. cbn [hd_error].
  rewrite Hreject. split; reflexivity.
Qed.

(** X10. The size shown next to the selected file is [0.00] (MB) for
    every file of fewer than 5243 bytes, and for no larger file is the
    rounded number of hundredths zero. *)
Theorem small_files_show_zero_megabytes (file : File) :
  (sizeHundredths (size file) = 0%N <-> (size file < 5243)%N) /\
  ((size file < 5243)%N -> sizeInMegabytes (size file) = "0.00").
Proof.
  assert (Hiff : sizeHundredths (size file) = 0%N <-> (size file < 5243)%N).
  { unfold sizeHundredths. split.
    - intros Hzero. apply N.div_small_iff in Hzero; lia.
    - intros Hsmall. apply N.div_small. lia. }
  split; [exact Hiff |].
  intros Hsmall. unfold sizeInMegabytes.
  rewrite (proj2 Hiff Hsmall). reflexivity.
Qed.

(** ** Sessions *)

Lemma fire_hide_timers_cells (due : list (N * list Effect)) (w : World) :
  Forall (fun p => snd p = hideMessageBox) due ->
  let w' := fold_left (fun w0 p => run w0 (snd p)) due w in
  selectedImage (app w') = selectedImage (app w) /\
  highlightedImageSrc (app w') = highlightedImageSrc (app w) /\
  textRegionsDetected (app w') = textRegionsDetected (app w) /\
  isProcessing (app w') = isProcessing (app w) /\
  showResultPage (app w') = showResultPage (app w) /\
  error (app w') = error (app w).
Proof.
  intros Hdue. revert w.
  induction Hdue as [| p due Hp Hdue IH]; intros w; cbn.
  - repeat split; reflexivity.
  - rewrite Hp. cbn.
    exact (IH (step w (SetMessageBox (mkMessageBox false "")))).
Qed.

Lemma due_timers_hide (t : N) (w : World) :
  hide_timers_only w ->
  Forall (fun p => snd p = hideMessageBox)
    (by_due_time (filter (fun p => (fst p <=? t)%N) (timers w))).
Proof.
  intros Hw. apply by_due_time_Forall, Forall_forall. intros p Hin.
  apply filter_In in Hin. exact (proj1 (Forall_forall _ _) Hw p (proj1 Hin)).
Qed.

(** Waiting touches the message box, the clock and the timers only. *)
Lemma advance_cells (d : N) (w : World) :
  hide_timers_only w ->
  let w' := advance d w in
  selectedImage (app w') = selectedImage (app w) /\
  highlightedImageSrc (app w') = highlightedImageSrc (app w) /\
  textRegionsDetected (app w') = textRegionsDetected (app w) /\
  isProcessing (app w') = isProcessing (app w) /\
  showResultPage (app w') = showResultPage (app w) /\
  error (app w') = error (app w).
Proof.
  intros Hw. unfold advance.
  exact (fire_hide_timers_cells _ _ (due_timers_hide (now w + d) w Hw)).
Qed.

Lemma mounted_coherent : Coherent mounted.
Proof.
  constructor; cbn.
  - constructor.
  - lia.
  - reflexivity.
  - intros _. reflexivity.
  - intros _. split; reflexivity.
  - constructor.
Qed.

Ltac same_cells :=
  match goal with
  | H : Coherent _ |- _ =>
      destruct H as [Ht Hs Hb Hi Hr Hf]; cbn in Ht, Hs, Hb, Hi, Hr, Hf;
      constructor; cbn; assumption
  end.

Lemma handle_keeps_coherent (ss : Session) (ev : Event) :
  Coherent ss -> Coherent (handle ss ev).
Proof.
  destruct ss as [w q]. intros Hc.
  destruct ev as [files | | | files | | net | | | d]; unfold handle; cbn [page pending].
  - destruct (showResultPage (app w)) eqn:Hshow; [exact Hc |].
    unfold on_page, dispatch, handleFileChange.
    destruct (hd_error files) as [file |];
      [destruct (String.prefix "image/" (type file)) |]; same_cells.
  - destruct (showResultPage (app w)) eqn:Hshow; [exact Hc |]. same_cells.
  - destruct (showResultPage (app w)) eqn:Hshow; [exact Hc |]. same_cells.
  - destruct (showResultPage (app w)) eqn:Hshow; [exact Hc |].
    unfold on_page, dispatch, handleDrop.
    destruct (hd_error files) as [file |];
      [destruct (String.prefix "image/" (type file)) |]; same_cells.
  - destruct (showResultPage (app w)) eqn:Hshow; [exact Hc |].
    destruct (selectedImage (app w)); [| exact Hc]. same_cells.
  - destruct (showResultPage (app w)) eqn:Hshow; [exact Hc |].
    unfold submitDisabled.
    destruct (selectedImage (app w)) as [image |] eqn:Hsel; [| exact Hc].
    destruct (isProcessing (app w)) eqn:Hbusy; [exact Hc |].
    cbn [orb]. rewrite (submit_start_prefix w image net Hsel).
    destruct Hc as [Ht Hs Hb Hi Hr Hf]. cbn in Ht, Hs, Hb, Hi, Hr, Hf.
    destruct q as [| p q]; [| rewrite Hbusy in Hb; discriminate Hb].
    constructor; cbn.
    + exact Ht.
    + lia.
    + reflexivity.
    + intros _. exact Hshow.
    + intros _. split; reflexivity.
    + constructor; [| constructor]. cbn. rewrite Hsel. discriminate.
  - destruct q as [| [s0 net] rest]; [exact Hc |].
    destruct Hc as [Ht Hs Hb Hi Hr Hf]. cbn in Ht, Hs, Hb, Hi, Hr, Hf.
    destruct rest as [| p rest]; [| cbn in Hs; lia].
    inversion Hf as [| p l Hfile _]; subst. cbn in Hfile.
    destruct (selectedImage s0) as [image |] eqn:Hsel; [| contradiction Hfile; reflexivity].
    destruct (submit_finish_cases s0 image net w Hsel) as (en & _ & ->).
    assert (Hshow : showResultPage (app w) = false) by (apply Hi; discriminate).
    destruct (Hr Hshow) as [Himage Hcount].
    destruct en; constructor; cbn;
      try reflexivity; try (constructor; fail); try lia;
      try (intros H; contradiction H; reflexivity);
      try (apply Forall_app; split; [exact Ht | repeat constructor]).
    + exact Hr.
    + exact Hr.
  - destruct (showResultPage (app w)) eqn:Hshow; [| exact Hc].
    destruct Hc as [Ht Hs Hb Hi Hr Hf]. cbn in Ht, Hs, Hb, Hi, Hr, Hf.
    constructor; cbn; try assumption.
    + intros Hq. specialize (Hi Hq). rewrite Hshow in Hi. discriminate Hi.
    + intros _. split; reflexivity.
  - destruct Hc as [Ht Hs Hb Hi Hr Hf]. cbn in Ht, Hs, Hb, Hi, Hr, Hf.
    destruct (advance_cells d w Ht) as (_ & Himage & Hcount & Hbusy & Hshow & _).
    constructor; cbn.
    + apply advance_keeps_hide_timers. exact Ht.
    + exact Hs.
    + rewrite Hbusy. exact Hb.
    + rewrite Hshow. exact Hi.
    + rewrite Hshow, Himage, Hcount. exact Hr.
    + exact Hf.
Qed.

Lemma play_coherent (evs : list Event) (ss : Session) :
  Coherent ss -> Coherent (play ss evs).
Proof.
  revert ss. induction evs as [| ev evs IH]; intros ss Hc; cbn.
  - exact Hc.
  - apply IH, handle_keeps_coherent, Hc.
Qed.

Lemma filter_nil_keeps_rest {A : Type} (f : A -> bool) (l : list A) :
  filter f l = [] -> filter (fun x => negb (f x)) l = l.
Proof.
  induction l as [| x l IH]; cbn; [reflexivity |].
  destruct (f x); cbn; [discriminate |]. intros H. rewrite (IH H). reflexivity.
Qed.

Lemma filter_all_due (t : N) (q : list (N * list Effect)) :
  Forall (fun p => (fst p <= t)%N) q ->
  filter (fun p => (fst p <=? t)%N) q = q /\
  filter (fun p => negb (fst p <=? t)%N) q = [].
Proof.
  induction 1 as [| p q Hp _ [IH1 IH2]]; cbn; [split; reflexivity |].
  destruct (N.leb_spec (fst p) t); [| lia]. cbn. rewrite IH1, IH2.
  split; reflexivity.
Qed.

Lemma by_due_time_nil (q : list (N * list Effect)) :
  by_due_time q = [] -> q = [].
Proof.
  intros H. apply (f_equal (@length _)) in H.
  rewrite by_due_time_length in H. destruct q; [reflexivity | discriminate H].
Qed.

Lemma advance_message_will_hide (d : N) (w : World) :
  hide_timers_only w -> message_will_hide w -> message_will_hide (advance d w).
Proof.
  intros Hw [Hvis Hdue]. unfold advance.
  set (t := (now w + d)%N).
  set (due := filter (fun p => (fst p <=? t)%N) (timers w)).
  set (later := filter (fun p => negb (fst p <=? t)%N) (timers w)).
  destruct (fire_hide_timers_frame (by_due_time due) (mkWorld (app w) t later)
              (due_timers_hide t w Hw)) as (Ht & Hn & _ & Hfired).
  unfold message_will_hide. fold due. rewrite Ht, Hn. cbn [timers now]. split.
  - destruct due as [| p due'] eqn:Hd.
    + cbn. intros Hv. subst later.
      rewrite (filter_nil_keeps_rest _ _ Hd). exact (Hvis Hv).
    + intros Hv. rewrite Hfired in Hv; [discriminate Hv |].
      intros Hnil. apply by_due_time_nil in Hnil. discriminate Hnil.
  - subst later. apply Forall_forall. intros p Hin. apply filter_In in Hin.
    pose proof (proj1 (Forall_forall _ _) Hdue p (proj1 Hin)) as Hp. cbn in Hp.
    subst t. lia.
Qed.

Lemma handle_keeps_message_will_hide (ss : Session) (ev : Event) :
  Coherent ss ->
  message_will_hide (page ss) -> message_will_hide (page (handle ss ev)).
Proof.
  destruct ss as [w q]. intros Hc Hm. cbn [page] in Hm.
  destruct ev as [files | | | files | | net | | | d]; unfold handle; cbn [page pending].
  - destruct (showResultPage (app w)); [exact Hm |].
    unfold on_page, dispatch, handleFileChange.
    destruct (hd_error files) as [file |];
      [destruct (String.prefix "image/" (type file)) |]; exact Hm.
  - destruct (showResultPage (app w)); exact Hm.
  - destruct (showResultPage (app w)); exact Hm.
  - destruct (showResultPage (app w)); [exact Hm |].
    unfold on_page, dispatch, handleDrop.
    destruct (hd_error files) as [file |];
      [destruct (String.prefix "image/" (type file)) |]; exact Hm.
  - destruct (showResultPage (app w)); [exact Hm |].
    destruct (selectedImage (app w)); exact Hm.
  - destruct (showResultPage (app w) || submitDisabled (app w)) eqn:Hoff; [exact Hm |].
    unfold submitDisabled in Hoff.
    destruct (selectedImage (app w)) as [image |] eqn:Hsel;
      [| rewrite orb_true_r in Hoff; discriminate Hoff].
    cbn [page]. rewrite (submit_start_prefix w image net Hsel). exact Hm.
  - destruct q as [| [s0 net] rest]; [exact Hm |].
    pose proof (coherent_files _ Hc) as Hf. cbn in Hf.
    inversion Hf as [| p l Hfile _]; subst. cbn in Hfile.
    destruct (selectedImage s0) as [image |] eqn:Hsel; [| contradiction Hfile; reflexivity].
    cbn [page].
    destruct (submit_finish_cases s0 image net w Hsel) as (en & _ & ->).
    destruct Hm as [Hvis Hdue].
    destruct en; (split; cbn;
      [ intros _ Hnil; apply app_eq_nil in Hnil; destruct Hnil as [_ Hnil];
        discriminate Hnil
      | apply Forall_app; split; [exact Hdue | repeat constructor; cbn; lia] ]).
  - destruct (showResultPage (app w)); exact Hm.
  - apply advance_message_will_hide; [exact (coherent_timers _ Hc) | exact Hm].
Qed.

Lemma handle_keeps_selected_image (ss : Session) (ev : Event) :
  Coherent ss ->
  selected_is_image (app (page ss)) -> selected_is_image (app (page (handle ss ev))).
Proof.
  destruct ss as [w q]. intros Hc Hm. cbn [page] in Hm.
  destruct ev as [files | | | files | | net | | | d]; unfold handle; cbn [page pending].
  - destruct (showResultPage (app w)); [exact Hm |].
    unfold on_page, dispatch, handleFileChange.
    destruct (hd_error files) as [file |];
      [destruct (String.prefix "image/" (type file)) eqn:Htype |];
      [exact Htype | exact I | exact Hm].
  - destruct (showResultPage (app w)); exact Hm.
  - destruct (showResultPage (app w)); exact Hm.
  - destruct (showResultPage (app w)); [exact Hm |].
    unfold on_page, dispatch, handleDrop.
    destruct (hd_error files) as [file |];
      [destruct (String.prefix "image/" (type file)) eqn:Htype |];
      [exact Htype | exact I | exact Hm].
  - destruct (showResultPage (app w)); [exact Hm |].
    destruct (selectedImage (app w)) eqn:Hsel; [exact I | exact Hm].
  - destruct (showResultPage (app w) || submitDisabled (app w)) eqn:Hoff; [exact Hm |].
    unfold submitDisabled in Hoff.
    destruct (selectedImage (app w)) as [image |] eqn:Hsel;
      [| rewrite orb_true_r in Hoff; discriminate Hoff].
    cbn [page]. rewrite (submit_start_prefix w image net Hsel). exact Hm.
  - destruct q as [| [s0 net] rest]; [exact Hm |].
    pose proof (coherent_files _ Hc) as Hf. cbn in Hf.
    inversion Hf as [| p l Hfile _]; subst. cbn in Hfile.
    destruct (selectedImage s0) as [image |] eqn:Hsel; [| contradiction Hfile; reflexivity].
    cbn [page].
    destruct (submit_finish_cases s0 image net w Hsel) as (en & _ & ->).
    destruct en; exact Hm.
  - destruct (showResultPage (app w)); [| exact Hm].
    exact I.
  - unfold selected_is_image.
    rewrite (proj1 (advance_cells d w (coherent_timers _ Hc))). exact Hm.
Qed.

(** What holds of every session played from the mounted page. *)
Lemma play_invariants (evs : list Event) (ss : Session) :
  Coherent ss /\ message_will_hide (page ss) /\ selected_is_image (app (page ss)) ->
  Coherent (play ss evs) /\ message_will_hide (page (play ss evs)) /\
  selected_is_image (app (page (play ss evs))).
Proof.
  revert ss. induction evs as [| ev evs IH]; intros ss (Hc & Hm & Hi); cbn.
  - split; [exact Hc | split; [exact Hm | exact Hi]].
  - apply IH. split; [| split].
    + apply handle_keeps_coherent, Hc.
    + apply handle_keeps_message_will_hide; assumption.
    + apply handle_keeps_selected_image; assumption.
Qed.

Lemma mounted_invariants :
  Coherent mounted /\ message_will_hide (page mounted) /\
  selected_is_image (app (page mounted)).
Proof.
  split; [exact mounted_coherent | split].
  - split; [discriminate | constructor].
  - exact I.
Qed.

(** X11. However picking, dropping, removing, clicking, settling, going
    back and waiting are interleaved, at most one request is in flight, the
    busy flag is up exactly while one is, and while it is up the input page
    is shown with its submit button disabled. *)
Theorem at_most_one_request_in_flight (evs : list Event) :
  let ss := play mounted evs in
  length (pending ss) <= 1 /\
  (isProcessing (app (page ss)) = true <-> pending ss <> []) /\
  (isProcessing (app (page ss)) = false \/
   (showResultPage (app (page ss)) = false /\
    submitDisabled (app (page ss)) = true)).
Proof.
  intros ss.
  destruct (play_invariants evs mounted mounted_invariants) as ([Ht Hs Hb Hi Hr Hf] & _).
  fold ss in Ht, Hs, Hb, Hi, Hr, Hf.
  split; [exact Hs | split].
  - rewrite Hb. destruct (pending ss); split; congruence.
  - destruct (isProcessing (app (page ss))) eqn:Hbusy; [right | left; reflexivity].
    split.
    + apply Hi. intros Hnil. rewrite Hnil in Hb. discriminate Hb.
    + unfold submitDisabled. rewrite Hbusy. destruct (selectedImage _); reflexivity.
Qed.

(** X12. The input page never shows a stale result: in every session,
    either the result page is open or the image is [null] and the count
    is 0. *)
Theorem input_page_has_no_stale_result (evs : list Event) :
  let s := app (page (play mounted evs)) in
  showResultPage s = true \/
  (highlightedImageSrc s = VNull /\ textRegionsDetected s = VNum 0).
Proof.
  intros s.
  destruct (play_invariants evs mounted mounted_invariants) as (Hc & _).
  destruct (showResultPage s) eqn:Hshow; [left; reflexivity | right].
  exact (coherent_result _ Hc Hshow).
Qed.

(** X13. Only images are uploaded: in every session the selected file, if
    any, has a MIME type starting with [image/], and so has the file of
    the request a click on the submit button would send. *)
Theorem only_images_are_uploaded (evs : list Event) (net : FetchOutcome) :
  let s := app (page (play mounted evs)) in
  selected_is_image s /\
  Forall (fun e => match e with
                   | Fetch _ _ _ file => String.prefix "image/" (type file) = true
                   | _ => True
                   end)
    (requests (effects (processTextDetection s net))).
Proof.
  intros s.
  destruct (play_invariants evs mounted mounted_invariants) as (_ & _ & Himage).
  fold s in Himage. split; [exact Himage |].
  rewrite requests_of_submission.
  unfold selected_is_image in Himage.
  destruct (selectedImage s); repeat constructor. exact Himage.
Qed.

(** X14. No notification outlives three quiet seconds: in every session,
    once 3000 ms or more pass without another event, the message box is
    hidden and no timer is left pending. *)
Theorem notification_hidden_after_quiet_delay (evs : list Event) (d : N) :
  (3000 <= d)%N ->
  let w := advance d (page (play mounted evs)) in
  toast (app w) = None /\ timers w = [].
Proof.
  intros Hd.
  destruct (play_invariants evs mounted mounted_invariants) as (Hc & [Hvis Hdue] & _).
  set (w0 := page (play mounted evs)) in *.
  pose proof (coherent_timers _ Hc) as Hhide. fold w0 in Hhide.
  assert (Hall : Forall (fun p => (fst p <= now w0 + d)%N) (timers w0)).
  { apply Forall_forall. intros p Hin.
    pose proof (proj1 (Forall_forall _ _) Hdue p Hin) as Hp. cbn in Hp. lia. }
  destruct (filter_all_due _ _ Hall) as [Hfired Hleft].
  cbv zeta. unfold advance. rewrite Hfired, Hleft.
  destruct (fire_hide_timers_frame (by_due_time (timers w0))
              (mkWorld (app w0) (now w0 + d)%N [])
              (by_due_time_Forall _ _ Hhide)) as (Ht & _ & Hkeep & Hfire).
  cbn [timers app] in Ht, Hkeep. split; [| exact Ht].
  unfold toast. destruct (timers w0) as [| p q] eqn:Hq.
  - cbn. destruct (visible (messageBox (app w0))) eqn:Hv; [| reflexivity].
    contradiction (Hvis eq_refl).
  - rewrite Hfire; [reflexivity |].
    intros Hnil. apply by_due_time_nil in Hnil. discriminate Hnil.
Qed.

Lemma notification_hidden_after_quiet_delay_witness :
  (3000 <= 3000)%N /\
  toast (app (advance 3000
                (page (play mounted [Pick [sampleImage];
                                     ClickSubmit (inr successResponse);
                                     Settle]))))
  = None.
Proof.
  split; [lia |].
  refine (proj1 (notification_hidden_after_quiet_delay
                   [Pick [sampleImage]; ClickSubmit (inr successResponse); Settle]
                   3000%N _)).
  lia.
Defined.


(** X16. On the idle input page the first file offered decides what the
    user can do next: an image enables the submit button and removes the
    error banner, anything else disables the button and shows the banner
    with the handler's message. *)
Theorem offered_file_decides_button_and_banner
    (w : World) (file : File) (others : list File) :
  showResultPage (app w) = false ->
  isProcessing (app w) = false ->
  let picked := app (dispatch w (handleFileChange (file :: others))) in
  let dropped := app (dispatch w (handleDrop (file :: others))) in
  if String.prefix "image/" (type file) then
    submitDisabled picked = false /\ errorBanner picked = None /\
    submitDisabled dropped = false /\ errorBanner dropped = None
  else
    submitDisabled picked = true /\
    errorBanner picked
    = Some (VStr "Please upload an image file (JPG, PNG). PDF support for detection is not yet available.") /\
    submitDisabled dropped = true /\
    errorBanner dropped = Some (VStr "Please drop an image file (JPG, PNG).").
Proof.
  intros Hshow Hbusy. unfold dispatch, handleFileChange, handleDrop.
  cbn [hd_error].
  destruct (String.prefix "image/" (type file));
    unfold submitDisabled, errorBanner; cbn; rewrite Hshow, ?Hbusy;
    repeat split; reflexivity.
Qed.

Lemma offered_file_decides_button_and_banner_witness :
  (showResultPage (app retryWorld) = false /\ isProcessing (app retryWorld) = false) /\
  submitDisabled
    (app (dispatch retryWorld
            (handleFileChange [mkFile "notes.txt" 12 "text/plain" []]))) = true.
Proof.
  split; [split; reflexivity |].
  exact (proj1 (offered_file_decides_button_and_banner retryWorld
                  (mkFile "notes.txt" 12 "text/plain" []) [] eq_refl eq_refl)).
Defined.

(** ** A session on sample inputs *)

Example second_click_is_swallowed :
  let ss := play mounted [Pick [sampleImage];
                          ClickSubmit (inr successResponse);
                          ClickSubmit connectionRefused] in
  pending ss = [(app readyWorld, inr successResponse)] /\
  isProcessing (app (page ss)) = true /\
  toast (app (page ss)) = None.
Proof. repeat split; reflexivity. Qed.

Example session_reaches_result_page_and_back :
  let shown := play mounted [Pick [sampleImage]; DragOver; DragLeave;
                             ClickSubmit (inr successResponse); Wait 1200;
                             Settle] in
  let back := play shown [Wait 2999; Back; Wait 1] in
  showResultPage (app (page shown)) = true /\
  textRegionsDetected (app (page shown)) = VNum 42 /\
  toast (app (page (play shown [Wait 2999]))) = Some "🎉 Text detection complete!" /\
  app (page back) = initialState /\ timers (page back) = [] /\
  now (page back) = 4200%N.
Proof. repeat split; reflexivity. Qed.

Example size_labels :
  sizeInMegabytes 5243 = "0.01" /\ sizeInMegabytes 131072 = "0.13" /\
  sizeInMegabytes 1048576 = "1.00" /\ sizeInMegabytes 12582912 = "12.00".
Proof. repeat split; reflexivity. Qed.
